(** * open-transcribe: the recording client [usage/simple-test.py]

    A shallow embedding of the script's four parts: the PCM encoder
    [convert_to_pcm_bytes], the recorder [record_audio], the upload client
    [transcribe_audio] and the command line driver [main].

    Python values are modelled as the script sees them: [int] as [Z], NumPy's
    [float32] and Python's [float] as IEEE-754 values of the Standard
    Library's [SpecFloat] (precision 24 and 53), [bytes] as [list byte],
    [str] as [string] (its UTF-8 bytes), JSON documents as [pyvalue].
    Exceptions are values of [exn]; a call that may raise returns a
    [result].  The console and the outside world (sound device, HTTP server)
    are a trace of [event]s and a record of oracles [World]. *)

From Stdlib Require Import ZArith List String Ascii Bool Lia.
From Stdlib Require Import Floats.SpecFloat DecimalString Strings.Byte.
Import ListNotations.
Open Scope Z_scope.

(** ** Exceptions and results *)

(** The exception classes the script meets.  [RequestException] stands for
    [requests.RequestException] and its transport subclasses;
    [JSONDecodeError] is [requests.exceptions.JSONDecodeError], a subclass of
    it.  [SystemExit] is what [sys.exit] raises; it is not an [Exception]. *)
Inductive exn : Type :=
| ValueError (msg : string)
| OverflowError (msg : string)
| AttributeError (msg : string)
| TypeError (msg : string)
| KeyError (msg : string)
| RequestException (msg : string)
| JSONDecodeError (msg : string)
| OtherException (msg : string)
| SystemExit (code : Z).

(** [isinstance(e, Exception)] *)
Definition is_Exception (e : exn) : bool :=
  match e with
  | SystemExit _ => false
  | _ => true
  end.

(** [isinstance(e, requests.RequestException)] *)
Definition is_RequestException (e : exn) : bool :=
  match e with
  | RequestException _ | JSONDecodeError _ => true
  | _ => false
  end.

(** [str(e)] *)
Definition exn_str (e : exn) : string :=
  match e with
  | ValueError m | OverflowError m | AttributeError m | TypeError m
  | KeyError m | RequestException m | JSONDecodeError m | OtherException m => m
  | SystemExit c => NilEmpty.string_of_int (Z.to_int c)
  end.

Inductive result (A : Type) : Type :=
| Return (a : A)
| Raise (e : exn).
Arguments Return {A} a.
Arguments Raise {A} e.

(** ** Numbers *)

(** [str(n)] for a Python [int]. *)
Definition int_str (n : Z) : string := NilEmpty.string_of_int (Z.to_int n).

Definition float32 : Type := spec_float.
Definition float64 : Type := spec_float.

(** Conversion of a Python [int] to [float32], to nearest even, as NumPy does
    with the scalar operand of [audio_data * 32767]. *)
Definition f32_of_int (n : Z) : float32 := binary_normalize 24 128 n 0 false.
Definition f32_mul (x y : float32) : float32 := SFmul 24 128 x y.

Definition f64_of_int (n : Z) : float64 := binary_normalize 53 1024 n 0 false.
Definition f64_mul (x y : float64) : float64 := SFmul 53 1024 x y.

(** The integer part of a finite float, rounded toward zero. *)
Definition trunc (f : spec_float) : option Z :=
  match f with
  | S754_zero _ => Some 0
  | S754_finite s m e =>
      Some (cond_Zopp s (if 0 <=? e then Z.shiftl (Zpos m) e
                         else Z.shiftr (Zpos m) (- e)))
  | S754_infinity _ | S754_nan => None
  end.

Definition int_min (bits : Z) : Z := - 2 ^ (bits - 1).
Definition int_max (bits : Z) : Z := 2 ^ (bits - 1) - 1.

(** Two's-complement reduction to a signed integer of [bits] bits. *)
Definition wrap_signed (bits z : Z) : Z :=
  (z + 2 ^ (bits - 1)) mod 2 ^ bits - 2 ^ (bits - 1).

(** ** What the script takes from its runtime

    Three behaviours are fixed by the platform and the installed libraries,
    not by the script:
    - [cast_out_of_range bits f]: the integer a C cast from [float] to a
      [bits]-bit integer leaves when [f] is NaN, infinite or does not fit
      (undefined in C; [astype] stores it reduced to [bits] bits);
    - [scalar_to_bytes_missing]: NumPy's integer scalars are not Python
      [int]s.  [None] when the scalar offers [int.to_bytes]; [Some msg] when
      the attribute lookup fails, with the [AttributeError]'s message;
    - [str_repr s]: [repr] of a [str], which depends on the Unicode
      database. *)
Class Runtime : Type := {
  cast_out_of_range : Z -> float32 -> Z;
  scalar_to_bytes_missing : option string;
  str_repr : string -> string
}.

(** ** Bytes *)

Definition bytes : Type := list byte.

Definition byte_of_Z (z : Z) : byte :=
  match Byte.of_N (Z.to_N (z mod 256)) with
  | Some b => b
  | None => x00
  end.

(** The [n] low bytes of [z] in two's complement, least significant first. *)
Fixpoint le_split (n : nat) (z : Z) : bytes :=
  match n with
  | O => []
  | S n' => byte_of_Z z :: le_split n' (Z.shiftr z 8)
  end.

(** Python's [int.to_bytes(length, "little", signed=signed)]. *)
Definition int_to_bytes (length : nat) (signed : bool) (z : Z) : result bytes :=
  let width := 8 * Z.of_nat length in
  if signed then
    if (- 2 ^ (width - 1) <=? z) && (z <? 2 ^ (width - 1))
    then Return (le_split length z)
    else Raise (OverflowError "int too big to convert")
  else
    if z <? 0 then Raise (OverflowError "can't convert negative int to unsigned")
    else if z <? 2 ^ width then Return (le_split length z)
    else Raise (OverflowError "int too big to convert").

(** ** The PCM encoder *)

(** A recorded buffer: [frames] rows of [channels] samples. *)
Definition AudioBuffer : Type := list (list float32).

Definition has_shape (frames channels : nat) (a : AudioBuffer) : Prop :=
  List.length a = frames /\ Forall (fun row => List.length row = channels) a.

(** [audio_data * k] for a Python [int] [k]: elementwise, in [float32]. *)
Definition scale (k : Z) (a : AudioBuffer) : AudioBuffer :=
  map (map (fun x => f32_mul x (f32_of_int k))) a.

(** The cast of one [float32] to a [bits]-bit signed integer, as [astype]
    applies it: toward zero when the value fits. *)
Definition cast_int {R : Runtime} (bits : Z) (f : float32) : Z :=
  match trunc f with
  | Some z =>
      if (int_min bits <=? z) && (z <=? int_max bits) then z
      else wrap_signed bits (cast_out_of_range bits f)
  | None => wrap_signed bits (cast_out_of_range bits f)
  end.

(** [a.astype(np.int16)] and [a.astype(np.int32)]. *)
Definition astype {R : Runtime} (bits : Z) (a : AudioBuffer) : list (list Z) :=
  map (map (cast_int bits)) a.

(** [pcm_data.flat]: the elements in row-major order. *)
Definition flat {A : Type} (a : list (list A)) : list A := List.concat a.

(** [pcm_data.tobytes()] for items of [width] bytes, little-endian. *)
Definition tobytes (width : nat) (pcm_data : list (list Z)) : bytes :=
  flat_map (le_split width) (flat pcm_data).

(** [sample_24bit.to_bytes(3, "little", signed=True)] on a NumPy scalar. *)
Definition scalar_to_bytes {R : Runtime} (length : nat) (signed : bool) (z : Z)
  : result bytes :=
  match scalar_to_bytes_missing with
  | Some msg => Raise (AttributeError msg)
  | None => int_to_bytes length signed z
  end.

(** The loop of the 24-bit branch over [pcm_data.flat], threading the
    [bytearray] it extends. *)
Fixpoint pack24 {R : Runtime} (samples : list Z) (bytes_data : bytes)
  : result bytes :=
  match samples with
  | [] => Return bytes_data
  | sample :: rest =>
      let sample_24bit := Z.land sample 16777215 in
      match scalar_to_bytes 3 true sample_24bit with
      | Return b => pack24 rest (bytes_data ++ b)
      | Raise e => Raise e
      end
  end.

Definition convert_to_pcm_bytes {R : Runtime} (audio_data : AudioBuffer)
  (bit_depth : Z) : result bytes :=
  if bit_depth =? 16 then
    let pcm_data := astype 16 (scale 32767 audio_data) in
    Return (tobytes 2 pcm_data)
  else if bit_depth =? 24 then
    let pcm_data := astype 32 (scale 8388607 audio_data) in
    pack24 (flat pcm_data) []
  else if bit_depth =? 32 then
    let pcm_data := astype 32 (scale 2147483647 audio_data) in
    Return (tobytes 4 pcm_data)
  else Raise (ValueError ("Unsupported bit depth: " ++ int_str bit_depth)).

(** ** Python's text forms of a [float] *)

Definition sign_str (s : bool) : string := if s then "-" else EmptyString.

(** The quotient [n / d] rounded to the nearest integer, ties to even
    ([0 <= n], [0 < d]). *)
Definition round_half_even (n d : Z) : Z :=
  let q := n / d in
  match 2 * (n mod d) ?= d with
  | Lt => q
  | Gt => q + 1
  | Eq => if Z.even q then q else q + 1
  end.

Definition pad2 (n : Z) : string :=
  if n <? 10 then "0" ++ int_str n else int_str n.

(** [format(f, ".2f")]: the exact binary value, correctly rounded to two
    places. *)
Definition float_fixed2 (f : float64) : string :=
  match f with
  | S754_nan => "nan"
  | S754_infinity s => sign_str s ++ "inf"
  | S754_zero s => sign_str s ++ "0.00"
  | S754_finite s m e =>
      let c := if 0 <=? e then Zpos m * 2 ^ e * 100
               else round_half_even (Zpos m * 100) (2 ^ (- e)) in
      sign_str s ++ int_str (c / 100) ++ "." ++ pad2 (c mod 100)
  end.

(** [d * 10^k] compared with [a * 2^e], for positive [d] and [a]. *)
Definition cmp_dec_bin (d k a e : Z) : comparison :=
  (d * 10 ^ Z.max k 0 * 2 ^ Z.max (- e) 0)
  ?= (a * 2 ^ Z.max e 0 * 10 ^ Z.max (- k) 0).

(** The decimal exponent [p] of [m * 2^e]: [10^(p-1) <= m * 2^e < 10^p]. *)
Definition decpt (m : positive) (e : Z) : Z :=
  let b := Zpos (digits2_pos m) + e in
  let p0 := (b - 1) * 30103 / 100000 + 1 in
  match cmp_dec_bin 1 p0 (Zpos m) e with
  | Gt =>
      match cmp_dec_bin 1 (p0 - 1) (Zpos m) e with
      | Gt => p0 - 1
      | _ => p0
      end
  | _ => p0 + 1
  end.

(** The [n]-digit decimal [d * 10^(p-n)] nearest to [m * 2^e] among those that
    read back as this very [float64] (round to nearest, ties to even), if
    there is one. *)
Definition short_candidate (m : positive) (e p n : Z) : option Z :=
  let k := p - n in
  let x := 4 * Zpos m in
  let e2 := e - 2 in
  let hi := x + 2 in
  let lo := if (Zpos m =? 2 ^ 52) && (-1074 <? e) then x - 1 else x - 2 in
  let incl := Z.even (Zpos m) in
  let d_lo := (x * 2 ^ Z.max e2 0 * 10 ^ Z.max (- k) 0)
              / (2 ^ Z.max (- e2) 0 * 10 ^ Z.max k 0) in
  let d_hi := d_lo + 1 in
  let inside d :=
    (0 <? d)
    && match cmp_dec_bin d k lo e2 with Gt => true | Eq => incl | Lt => false end
    && match cmp_dec_bin d k hi e2 with Lt => true | Eq => incl | Gt => false end in
  match inside d_lo, inside d_hi with
  | false, false => None
  | true, false => Some d_lo
  | false, true => Some d_hi
  | true, true =>
      match cmp_dec_bin (d_lo + d_hi) k (2 * x) e2 with
      | Lt => Some d_hi
      | Gt => Some d_lo
      | Eq => Some (if Z.even d_lo then d_lo else d_hi)
      end
  end.

(** The shortest such decimal, trying 1 to 17 digits: its digits and the
    exponent [k] of its last digit. *)
Fixpoint shortest (m : positive) (e p : Z) (tries : nat) (n : Z) : Z * Z :=
  match tries with
  | O => (0, 0)
  | S tries' =>
      match short_candidate m e p n with
      | Some d => (d, p - n)
      | None => shortest m e p tries' (n + 1)
      end
  end.

Fixpoint strip_zeros_rev (s : list ascii) : list ascii :=
  match s with
  | "0"%char :: s' => strip_zeros_rev s'
  | _ => s
  end.

(** A digit string without its trailing zeros. *)
Definition strip_trailing_zeros (s : string) : string :=
  string_of_list_ascii (rev (strip_zeros_rev (rev (list_ascii_of_string s)))).

Fixpoint zeros (n : nat) : string :=
  match n with
  | O => EmptyString
  | S n' => String "0" (zeros n')
  end.

(** [repr(f)] and [str(f)] of a Python [float]: the shortest digits that
    read back as [f], in exponent form when the decimal point falls before
    [-3] or past [16]. *)
Definition float_repr (f : float64) : string :=
  match f with
  | S754_nan => "nan"
  | S754_infinity s => sign_str s ++ "inf"
  | S754_zero s => sign_str s ++ "0.0"
  | S754_finite s m e =>
      let '(d, k) := shortest m e (decpt m e) 17 1 in
      let all := int_str d in
      let dp := k + Z.of_nat (String.length all) in
      let ds := strip_trailing_zeros all in
      let n := Z.of_nat (String.length ds) in
      sign_str s ++
      (if (dp <=? -4) || (16 <? dp) then
         let x := dp - 1 in
         substring 0 1 ds
         ++ (if 1 <? n then "." ++ substring 1 (Z.to_nat (n - 1)) ds
             else EmptyString)
         ++ "e" ++ (if x <? 0 then "-" else "+") ++ pad2 (Z.abs x)
       else if dp <=? 0 then "0." ++ zeros (Z.to_nat (- dp)) ++ ds
       else if dp <? n then
         substring 0 (Z.to_nat dp) ds ++ "."
         ++ substring (Z.to_nat dp) (Z.to_nat (n - dp)) ds
       else ds ++ zeros (Z.to_nat (dp - n)) ++ ".0")
  end.

(** ** Python values, as [response.json()] returns them *)

(** A [dict] keeps its items in insertion order; its keys are distinct, so
    [lookup] finds the one binding of a key. *)
#[warnings="-register-all"]
Inductive pyvalue : Type :=
| PyNone
| PyBool (b : bool)
| PyInt (n : Z)
| PyFloat (f : float64)
| PyStr (s : string)
| PyList (l : list pyvalue)
| PyDict (d : list (string * pyvalue)).

Definition type_name (v : pyvalue) : string :=
  match v with
  | PyNone => "NoneType"
  | PyBool _ => "bool"
  | PyInt _ => "int"
  | PyFloat _ => "float"
  | PyStr _ => "str"
  | PyList _ => "list"
  | PyDict _ => "dict"
  end.

Fixpoint join (sep : string) (l : list string) : string :=
  match l with
  | [] => EmptyString
  | [s] => s
  | s :: l' => s ++ sep ++ join sep l'
  end.

(** [repr(v)] *)
Fixpoint py_repr {R : Runtime} (v : pyvalue) : string :=
  match v with
  | PyNone => "None"
  | PyBool b => if b then "True" else "False"
  | PyInt n => int_str n
  | PyFloat f => float_repr f
  | PyStr s => str_repr s
  | PyList l => "[" ++ join ", " (map py_repr l) ++ "]"
  | PyDict d =>
      "{" ++ join ", " (map (fun kv => let '(k, x) := kv in
                                       (str_repr k ++ ": " ++ py_repr x)%string) d)
      ++ "}"
  end.

(** [str(v)], which is also [format(v, "")] and what an f-string field
    without a format shows. *)
Definition py_str {R : Runtime} (v : pyvalue) : string :=
  match v with
  | PyStr s => s
  | _ => py_repr v
  end.

(** [bool(v)] *)
Definition truthy (v : pyvalue) : bool :=
  match v with
  | PyNone => false
  | PyBool b => b
  | PyInt n => negb (n =? 0)
  | PyFloat (S754_zero _) => false
  | PyFloat _ => true
  | PyStr s => negb (String.eqb s EmptyString)
  | PyList l => match l with [] => false | _ => true end
  | PyDict d => match d with [] => false | _ => true end
  end.

Fixpoint lookup (key : string) (d : list (string * pyvalue)) : option pyvalue :=
  match d with
  | [] => None
  | (k, x) :: d' => if String.eqb k key then Some x else lookup key d'
  end.

(** [v[key]] for a [str] key. *)
Definition subscript {R : Runtime} (v : pyvalue) (key : string) : result pyvalue :=
  match v with
  | PyDict d =>
      match lookup key d with
      | Some x => Return x
      | None => Raise (KeyError (str_repr key))
      end
  | PyList _ =>
      Raise (TypeError "list indices must be integers or slices, not str")
  | PyStr _ => Raise (TypeError "string indices must be integers, not 'str'")
  | _ => Raise (TypeError ("'" ++ type_name v ++ "' object is not subscriptable"))
  end.

(** [v.get(key)] *)
Definition py_get (v : pyvalue) (key : string) : result pyvalue :=
  match v with
  | PyDict d =>
      match lookup key d with
      | Some x => Return x
      | None => Return PyNone
      end
  | _ => Raise (AttributeError
                  ("'" ++ type_name v ++ "' object has no attribute 'get'"))
  end.

(** [format(v, ".2f")] *)
Definition format_2f (v : pyvalue) : result string :=
  let of_int n :=
    match f64_of_int n with
    | S754_infinity _ =>
        Raise (OverflowError "int too large to convert to float")
    | f => Return (float_fixed2 f)
    end in
  match v with
  | PyFloat f => Return (float_fixed2 f)
  | PyInt n => of_int n
  | PyBool b => of_int (if b then 1 else 0)
  | PyStr _ =>
      Raise (ValueError "Unknown format code 'f' for object of type 'str'")
  | _ => Raise (TypeError ("unsupported format string passed to "
                           ++ type_name v ++ ".__format__"))
  end.

(** The code points of a [str], each as a [str]: a byte of the form
    [10xxxxxx] continues the code point before it. *)
Fixpoint code_points (s : string) : list string :=
  match s with
  | EmptyString => []
  | String c s' =>
      match code_points s' with
      | String c' r :: rest =>
          if (128 <=? Z.of_nat (nat_of_ascii c'))
             && (Z.of_nat (nat_of_ascii c') <? 192)
          then String c (String c' r) :: rest
          else String c EmptyString :: String c' r :: rest
      | rest => String c EmptyString :: rest
      end
  end.

(** The items a [for] loop over [v] visits. *)
Definition py_iter (v : pyvalue) : result (list pyvalue) :=
  match v with
  | PyList l => Return l
  | PyDict d => Return (map (fun kv => PyStr (fst kv)) d)
  | PyStr s => Return (map PyStr (code_points s))
  | _ => Raise (TypeError ("'" ++ type_name v ++ "' object is not iterable"))
  end.

(** ** The outside world and the console *)

Record Response : Type := {
  status_code : Z;
  (** [response.json()]: the parsed body, or the exception it raises. *)
  json : result pyvalue;
  (** [response.text] *)
  text : string
}.

(** The arguments of [requests.post(url, files=files, data=data, timeout=...)]:
    [files] maps a field to (file name, content, content type). *)
Record PostRequest : Type := {
  post_url : string;
  post_files : list (string * (string * bytes * string));
  post_data : list (string * string);
  post_timeout : Z
}.

(** What the libraries answer when the script calls them. *)
Record World : Type := {
  (** [str(sd.query_devices())] *)
  sd_query_devices : result string;
  (** [sd.rec(frames, samplerate=, channels=, dtype="float32")]: the array,
      as it stands once the recording has finished. *)
  sd_rec : Z -> Z -> Z -> result AudioBuffer;
  sd_wait : result unit;
  (** [requests.get(url, timeout=timeout)] *)
  requests_get : string -> Z -> result Response;
  requests_post : PostRequest -> result Response
}.

Inductive event : Type :=
| Print (line : string)
| QueryDevices
| Rec (frames samplerate channels : Z)
| Wait
| HttpGet (url : string) (timeout : Z)
| HttpPost (request : PostRequest).

(** A computation: the events it causes, in order, and how it ends. *)
Definition IO (A : Type) : Type := list event * result A.

Definition ret {A : Type} (a : A) : IO A := ([], Return a).

Definition bind {A B : Type} (m : IO A) (k : A -> IO B) : IO B :=
  match m with
  | (t, Return a) => let '(t', r) := k a in (t ++ t', r)
  | (t, Raise e) => (t, Raise e)
  end.

Notation "x <- m ;; k" := (bind m (fun x => k))
  (at level 61, m at next level, right associativity).
Notation "m ;; k" := (bind m (fun _ => k))
  (at level 61, right associativity).

(** [try: body except ...: handler]: [handler e] is [None] when no clause
    matches [e]. *)
Definition try_except {A : Type} (body : IO A) (handler : exn -> option (IO A))
  : IO A :=
  match body with
  | (t, Raise e) =>
      match handler e with
      | Some h => let '(t', r) := h in (t ++ t', r)
      | None => body
      end
  | _ => body
  end.

Definition print (line : string) : IO unit := ([Print line], Return tt).
Definition call {A : Type} (ev : event) (answer : result A) : IO A :=
  ([ev], answer).
Definition lift {A : Type} (r : result A) : IO A := ([], r).
Definition sys_exit {A : Type} (code : Z) : IO A := ([], Raise (SystemExit code)).

(** The status the process ends with: 0 when [main] returns, the code of
    [sys.exit], 1 after an uncaught exception. *)
Definition exit_status {A : Type} (r : result A) : Z :=
  match r with
  | Return _ => 0
  | Raise (SystemExit code) => code
  | Raise _ => 1
  end.

(** ** The recorder *)

(** [args.duration]: a [float] from the command line, the [int] 5 by
    default. *)
Inductive number : Type :=
| NInt (n : Z)
| NFloat (f : float64).

Definition number_str (x : number) : string :=
  match x with
  | NInt n => int_str n
  | NFloat f => float_repr f
  end.

(** [int(duration * sample_rate)] *)
Definition frame_count (duration : number) (sample_rate : Z) : result Z :=
  match duration with
  | NInt n => Return (n * sample_rate)
  | NFloat f =>
      match f64_of_int sample_rate with
      | S754_infinity _ =>
          Raise (OverflowError "int too large to convert to float")
      | r =>
          match f64_mul f r with
          | S754_nan => Raise (ValueError "cannot convert float NaN to integer")
          | S754_infinity _ =>
              Raise (OverflowError "cannot convert float infinity to integer")
          | p => match trunc p with
                 | Some z => Return z
                 | None => Return 0
                 end
          end
      end
  end.

Definition record_audio (w : World) (duration : number)
  (sample_rate channels : Z) : IO AudioBuffer :=
  print ("Recording for " ++ number_str duration ++ " seconds...") ;;
  print "Speak now!" ;;
  frames <- lift (frame_count duration sample_rate) ;;
  audio_data <- call (Rec frames sample_rate channels)
                     (sd_rec w frames sample_rate channels) ;;
  call Wait (sd_wait w) ;;
  print "Recording complete!" ;;
  ret audio_data.

(** ** The upload client *)

(** The request [transcribe_audio] prepares: the URL, the file part and the
    form fields, sent with a timeout of 30 seconds. *)
Definition upload_request (audio_bytes : bytes)
  (sample_rate channels bit_depth : Z) (api_url : string) : PostRequest :=
  let url := (api_url ++ "/transcribe/upload")%string in
  let files := [("audio"%string,
                 ("audio.pcm"%string, audio_bytes,
                  "application/octet-stream"%string))] in
  let data := [("sample_rate", int_str sample_rate);
               ("channels", int_str channels);
               ("bit_depth", int_str bit_depth)]%string in
  {| post_url := url; post_files := files;
     post_data := data; post_timeout := 30 |}.

Definition transcribe_audio {R : Runtime} (w : World) (audio_bytes : bytes)
  (sample_rate channels bit_depth : Z) (api_url : string) : IO pyvalue :=
  let request :=
    upload_request audio_bytes sample_rate channels bit_depth api_url in
  try_except
    (print "Sending audio to transcription API via multipart upload..." ;;
     response <- call (HttpPost request) (requests_post w request) ;;
     if status_code response =? 200 then
       lift (json response)
     else
       print ("API error: " ++ int_str (status_code response)) ;;
       try_except
         (error_info <- lift (json response) ;;
          print ("Error details: " ++ py_str error_info))
         (fun _ => Some (print ("Response: " ++ text response))) ;;
       ret PyNone)
    (fun e =>
       if is_RequestException e
       then Some (print ("Request failed: " ++ exn_str e) ;; ret PyNone)
       else None).

(** ** The command line driver *)

(** The parsed command line ([parser.parse_args()]). *)
Record Args : Type := {
  duration : number;
  sample_rate : Z;
  channels : Z;
  bit_depth : Z;
  api_url : string;
  list_devices : bool
}.

Definition DEFAULT_SAMPLE_RATE : Z := 16000.
Definition DEFAULT_CHANNELS : Z := 1.
Definition DEFAULT_BIT_DEPTH : Z := 16.
Definition DEFAULT_DURATION : number := NInt 5.
Definition API_BASE_URL : string := "http://127.0.0.1:8080".

Definition newline : string := String "010"%char EmptyString.

Fixpoint repeat_str (s : string) (n : nat) : string :=
  match n with
  | O => EmptyString
  | S n' => s ++ repeat_str s n'
  end.

(** One pass of the loop over the segments: the line of segment number
    [i + 1].  The fields of the f-string are evaluated and formatted from
    left to right. *)
Definition segment_line {R : Runtime} (i : nat) (segment : pyvalue) : result string :=
  match subscript segment "start" with
  | Raise e => Raise e
  | Return s =>
  match subscript segment "end" with
  | Raise e => Raise e
  | Return e' =>
  match subscript segment "confidence" with
  | Raise e => Raise e
  | Return c =>
  match format_2f c with
  | Raise e => Raise e
  | Return c2 =>
  match subscript segment "text" with
  | Raise e => Raise e
  | Return t =>
      Return ("  " ++ int_str (Z.of_nat i + 1) ++ ". [" ++ py_str s ++ "-"
              ++ py_str e' ++ "] (confidence: " ++ c2 ++ ") " ++ py_str t)%string
  end end end end end.

(** [for i, segment in enumerate(segments): print(...)], from index [i]. *)
Fixpoint print_segments {R : Runtime} (i : nat) (segments : list pyvalue) : IO unit :=
  match segments with
  | [] => ret tt
  | segment :: rest =>
      line <- lift (segment_line i segment) ;;
      print line ;;
      print_segments (S i) rest
  end.

(** The branch of [main] taken on a truthy result. *)
Definition render {R : Runtime} (result : pyvalue) : IO unit :=
  print (newline ++ repeat_str "=" 50) ;;
  print "TRANSCRIPTION RESULT:" ;;
  print (repeat_str "=" 50) ;;
  t <- lift (subscript result "text") ;;
  print ("Text: " ++ py_str t) ;;
  segments <- lift (py_get result "segments") ;;
  if truthy segments then
    print (newline ++ "Segments:") ;;
    segments' <- lift (subscript result "segments") ;;
    items <- lift (py_iter segments') ;;
    print_segments 0 items
  else ret tt.

(** [main] from the conversion to PCM bytes to its end. *)
Definition encode_and_transcribe {R : Runtime} (w : World) (args : Args)
  (audio_data : AudioBuffer) : IO unit :=
  audio_bytes <-
    try_except
      (audio_bytes <- lift (convert_to_pcm_bytes audio_data (bit_depth args)) ;;
       print ("Audio converted: "
              ++ int_str (Z.of_nat (List.length audio_bytes)) ++ " bytes") ;;
       ret audio_bytes)
      (fun e =>
         if is_Exception e
         then Some (print ("Audio conversion failed: " ++ exn_str e) ;;
                    sys_exit 1)
         else None) ;;
  result <- transcribe_audio w audio_bytes (sample_rate args) (channels args)
                             (bit_depth args) (api_url args) ;;
  if truthy result then render result
  else print "Transcription failed!" ;; sys_exit 1.

(** [main] from the recording to its end. *)
Definition record_and_transcribe {R : Runtime} (w : World) (args : Args) : IO unit :=
  audio_data <-
    try_except
      (record_audio w (duration args) (sample_rate args) (channels args))
      (fun e =>
         if is_Exception e
         then Some (print ("Recording failed: " ++ exn_str e) ;;
                    print "Make sure you have a working microphone and the required permissions" ;;
                    sys_exit 1)
         else None) ;;
  encode_and_transcribe w args audio_data.

(** The connectivity test of [main]. *)
Definition probe (w : World) (args : Args) : IO unit :=
  try_except
    (let test_url := (api_url args ++ "/")%string in
     print ("Testing API connection to " ++ test_url ++ "...") ;;
     response <- call (HttpGet test_url 5) (requests_get w test_url 5) ;;
     if status_code response =? 200 then print "✓ API is accessible"
     else print ("⚠ API returned status " ++ int_str (status_code response)))
    (fun e =>
       if is_RequestException e
       then Some (print ("✗ Cannot connect to API: " ++ exn_str e) ;;
                  print "Make sure the Rust server is running on the specified URL" ;;
                  sys_exit 1)
       else None).

Definition main {R : Runtime} (w : World) (args : Args) : IO unit :=
  if list_devices args then
    print "Available audio devices:" ;;
    devices <- call QueryDevices (sd_query_devices w) ;;
    print devices
  else
    probe w args ;;
    record_and_transcribe w args.

(** The script run as a program: what it prints and calls, and its exit
    status. *)
Definition run {R : Runtime} (w : World) (args : Args) : list event * Z :=
  let '(t, r) := main w args in (t, exit_status r).

(** ** Reading a run, and the shape of an answer *)

(** The file contents of the uploads a trace holds. *)
Definition uploads (t : list event) : list bytes :=
  flat_map (fun ev => match ev with
                      | HttpPost request =>
                          map (fun part => snd (fst (snd part)))
                              (post_files request)
                      | _ => []
                      end) t.

(** The events of the steps after the device listing. *)
Definition later_step (ev : event) : bool :=
  match ev with
  | Print _ | QueryDevices => false
  | Rec _ _ _ | Wait | HttpGet _ _ | HttpPost _ => true
  end.

(** The fields of a segment: a [dict] with [start], [end], [text] and a
    [float] [confidence]. *)
Definition segment_fields (v : pyvalue)
  : option (pyvalue * pyvalue * float64 * pyvalue) :=
  match v with
  | PyDict d =>
      match lookup "start" d, lookup "end" d, lookup "confidence" d,
            lookup "text" d with
      | Some s, Some e, Some (PyFloat c), Some t => Some (s, e, c, t)
      | _, _, _, _ => None
      end
  | _ => None
  end.

Definition is_segment (v : pyvalue) : bool :=
  match segment_fields v with
  | Some _ => true
  | None => false
  end.

(** A segment in the form [index. [start-end] (confidence: c) text], the
    confidence with two decimal places. *)
Definition segment_text {R : Runtime} (index : Z) (v : pyvalue) : string :=
  match segment_fields v with
  | Some (s, e, c, t) =>
      int_str index ++ ". [" ++ py_str s ++ "-" ++ py_str e
      ++ "] (confidence: " ++ float_fixed2 c ++ ") " ++ py_str t
  | None => EmptyString
  end.

(** The lines of the segments, numbered from [index], each indented by two
    spaces. *)
Fixpoint segment_lines {R : Runtime} (index : Z) (segments : list pyvalue)
  : list string :=
  match segments with
  | [] => []
  | v :: rest =>
      ("  " ++ segment_text index v)%string :: segment_lines (index + 1) rest
  end.

(** ** Reading a trace and reading PCM bytes back *)

Definition is_print (ev : event) : bool :=
  match ev with
  | Print _ => true
  | _ => false
  end.

(** What a run asks of the libraries: its events other than prints, in
    order. *)
Definition calls (t : list event) : list event :=
  filter (fun ev => negb (is_print ev)) t.

(** The unsigned value of little-endian bytes. *)
Fixpoint le_combine (bs : bytes) : Z :=
  match bs with
  | [] => 0
  | b :: bs' => Z.of_N (Byte.to_N b) + 256 * le_combine bs'
  end.

(** [count] signed little-endian words of [width] bytes, read from the
    front of [bs]. *)
Fixpoint read_words (width count : nat) (bs : bytes) : list Z :=
  match count with
  | O => []
  | S count' =>
      wrap_signed (8 * Z.of_nat width) (le_combine (firstn width bs))
      :: read_words width count' (skipn width bs)
  end.

(** The samples a consumer reads from PCM bytes of the given width, as
    [np.frombuffer] does with a little-endian signed type. *)
Definition read_pcm (width : nat) (bs : bytes) : list Z :=
  read_words width (List.length bs / width) bs.

(** ** Sample values and a reference runtime *)

(** The [float32] values 0.5 and -0.5. *)
Definition f32_half : float32 := S754_finite false 8388608 (-24).
Definition f32_minus_half : float32 := SFopp f32_half.

(** The [float64] values 1.0 and 0.95 (the double nearest to 95/100). *)
Definition f64_one : float64 := f64_of_int 1.
Definition f64_095 : float64 := SFdiv 53 1024 (f64_of_int 95) (f64_of_int 100).

(** The cast of x86-64: the conversion instruction works on 32 bits and
    answers [-2^31] for what does not fit; a narrower target keeps the low
    bits. *)
Definition x86_cast (bits : Z) (f : float32) : Z :=
  match trunc f with
  | Some z => if (int_min 32 <=? z) && (z <=? int_max 32) then z else int_min 32
  | None => int_min 32
  end.

(** [repr] of a [str] of printable ASCII without quotes or backslashes. *)
Definition plain_repr (s : string) : string := "'" ++ s ++ "'".

(** A runtime on x86-64, with or without [to_bytes] on NumPy's scalars. *)
Definition x86_runtime (missing : option string) : Runtime :=
  {| cast_out_of_range := x86_cast;
     scalar_to_bytes_missing := missing;
     str_repr := plain_repr |}.

(** The three lines that open the result on the console. *)
Definition heading : list event :=
  [Print (newline ++ repeat_str "=" 50); Print "TRANSCRIPTION RESULT:";
   Print (repeat_str "=" 50)].

(** The answer of the mock server: one segment from 0.0 to 1.0 with
    confidence 0.95. *)
Definition example_segment : pyvalue :=
  PyDict [("start", PyFloat (S754_zero false)); ("end", PyFloat f64_one);
          ("confidence", PyFloat f64_095); ("text", PyStr "test")]%string.

Definition example_body : pyvalue :=
  PyDict [("text", PyStr "test"); ("segments", PyList [example_segment])]%string.

Definition ok_response (body : pyvalue) : Response :=
  {| status_code := 200; json := Return body; text := EmptyString |}.

(** A world whose microphone records silence of the shape asked for and
    whose server gives the two answers. *)
Definition mock_world (get_answer post_answer : result Response) : World :=
  {| sd_query_devices := Return "0 default, ALSA (2 in, 2 out)"%string;
     sd_rec := fun frames _ channels =>
       Return (repeat (repeat (S754_zero false) (Z.to_nat channels))
                      (Z.to_nat frames));
     sd_wait := Return tt;
     requests_get := fun _ _ => get_answer;
     requests_post := fun _ => post_answer |}.

(** [-d 1 -r 8 -c 1 -b 16]: one second at 8 Hz, eight frames. *)
Definition example_args : Args :=
  {| duration := NFloat f64_one; sample_rate := 8; channels := 1;
     bit_depth := 16; api_url := API_BASE_URL; list_devices := false |}.

(** [--list-devices], the other options at their defaults. *)
Definition listing_args : Args :=
  {| duration := DEFAULT_DURATION; sample_rate := DEFAULT_SAMPLE_RATE;
     channels := DEFAULT_CHANNELS; bit_depth := DEFAULT_BIT_DEPTH;
     api_url := API_BASE_URL; list_devices := true |}.

(** Answers of a server in trouble, and a refused connection. *)
Definition error_response : Response :=
  {| status_code := 500;
     json := Return (PyDict [("error", PyStr "model not loaded")]%string);
     text := "{'error': 'model not loaded'}" |}.

Definition unavailable_response : Response :=
  {| status_code := 503;
     json := Raise (JSONDecodeError "Expecting value: line 1 column 1 (char 0)");
     text := "Service Unavailable" |}.

Definition garbled_response : Response :=
  {| status_code := 200;
     json := Raise (JSONDecodeError "Expecting value: line 1 column 1 (char 0)");
     text := "<html>" |}.

Definition refused : exn := RequestException "Connection refused".

(** A body nested too deeply for the JSON decoder: [json()] raises
    [RecursionError], which is no [RequestException]. *)
Definition recursion_error : exn :=
  OtherException "maximum recursion depth exceeded".

Definition deep_response : Response :=
  {| status_code := 200; json := Raise recursion_error; text := "[[[[[[" |}.

(** The mock server of the end-to-end scenario: reachable, and answering
    the upload with [example_body]. *)
Definition scenario_world : World :=
  mock_world (Return (ok_response PyNone)) (Return (ok_response example_body)).

(** The buffer, the traces and the request of the scenario's run. *)
Definition silence (frames : nat) : AudioBuffer :=
  repeat [S754_zero false] frames.

Definition probe_ok : list event :=
  [Print "Testing API connection to http://127.0.0.1:8080/...";
   HttpGet "http://127.0.0.1:8080/" 5; Print "✓ API is accessible"].

Definition recording : list event :=
  [Print "Recording for 1.0 seconds..."; Print "Speak now!"; Rec 8 8 1; Wait;
   Print "Recording complete!"].

Definition sending (audio_bytes : bytes) (sr : Z) : list event :=
  [Print "Sending audio to transcription API via multipart upload...";
   HttpPost (upload_request audio_bytes sr 1 16 API_BASE_URL)].

(** A world whose server is reachable and whose microphone and upload
    answer as given. *)
Definition studio (mic : result AudioBuffer) (post_answer : result Response)
  : World :=
  {| sd_query_devices := Return "0 default, ALSA (2 in, 2 out)"%string;
     sd_rec := fun _ _ _ => mic;
     sd_wait := Return tt;
     requests_get := fun _ _ => Return (ok_response PyNone);
     requests_post := fun _ => post_answer |}.

(** [-d 1 -r 8 -c 1 -b 24] *)
Definition args_24 : Args :=
  {| duration := NFloat f64_one; sample_rate := 8; channels := 1;
     bit_depth := 24; api_url := API_BASE_URL; list_devices := false |}.

Definition no_device : exn := OtherException "Error querying device -1".

(** A segment that lacks its confidence. *)
Definition broken_segment : pyvalue :=
  PyDict [("start", PyFloat f64_one); ("end", PyFloat f64_one);
          ("text", PyStr "cut")]%string.

(** The message of the [AttributeError] on a scalar without [to_bytes]. *)
Definition missing_to_bytes : string :=
  "'numpy.int32' object has no attribute 'to_bytes'".

(** * Properties of the encoder *)

Section Encoder.
Context {R : Runtime}.

Lemma length_le_split (n : nat) (z : Z) : List.length (le_split n z) = n.
Proof.
  revert z; induction n as [|n IH]; intros z; simpl; [reflexivity|].
  now rewrite IH.
Qed.

Lemma length_flat_map_le_split (width : nat) (l : list Z) :
  List.length (flat_map (le_split width) l) = (width * List.length l)%nat.
Proof.
  induction l as [|z l IH]; simpl.
  - now rewrite Nat.mul_0_r.
  - rewrite List.length_app, length_le_split, IH. lia.
Qed.

Lemma length_flat_map_map {A B : Type} (f : A -> B) (a : list (list A)) :
  List.length (flat (map (map f) a)) = List.length (flat a).
Proof.
  unfold flat. induction a as [|row a IH]; simpl; [reflexivity|].
  now rewrite !List.length_app, List.length_map, IH.
Qed.

Lemma length_flat_shape (frames channels : nat) (a : AudioBuffer) :
  has_shape frames channels a ->
  List.length (flat a) = (frames * channels)%nat.
Proof.
  intros [Hlen Hrows]. subst frames. unfold flat.
  induction Hrows as [|row a Hrow _ IH]; simpl; [reflexivity|].
  rewrite List.length_app, IH, Hrow. reflexivity.
Qed.

Lemma length_samples (bits k : Z) (frames channels : nat) (a : AudioBuffer) :
  has_shape frames channels a ->
  List.length (flat (astype bits (scale k a))) = (frames * channels)%nat.
Proof.
  intros Hs. unfold astype, scale.
  rewrite !length_flat_map_map. now apply length_flat_shape.
Qed.

Lemma scalar_to_bytes_length (n : nat) (signed : bool) (z : Z) (b : bytes) :
  scalar_to_bytes n signed z = Return b -> List.length b = n.
Proof.
  unfold scalar_to_bytes, int_to_bytes.
  destruct scalar_to_bytes_missing; [discriminate|].
  destruct signed.
  - destruct (_ && _); [|discriminate].
    intros [= <-]. apply length_le_split.
  - destruct (z <? 0); [discriminate|].
    destruct (z <? _); [|discriminate].
    intros [= <-]. apply length_le_split.
Qed.

Lemma pack24_length (samples : list Z) (acc b : bytes) :
  pack24 samples acc = Return b ->
  List.length b = (List.length acc + 3 * List.length samples)%nat.
Proof.
  revert acc; induction samples as [|z samples IH]; intros acc; simpl.
  - intros [= <-]. lia.
  - destruct (scalar_to_bytes 3 true _) as [c|e] eqn:Hc; [|discriminate].
    intros Hb. apply IH in Hb. apply scalar_to_bytes_length in Hc.
    rewrite List.length_app in Hb. lia.
Qed.

(** The encoder returns at depths 16 and 32 whatever the samples are. *)
Lemma convert_16_32_returns (audio_data : AudioBuffer) (bit_depth : Z) :
  bit_depth = 16 \/ bit_depth = 32 ->
  exists b, convert_to_pcm_bytes audio_data bit_depth = Return b.
Proof.
  intros [-> | ->]; unfold convert_to_pcm_bytes; simpl; eauto.
Qed.

(** Whatever the encoder returns has [frames * channels * (bit_depth / 8)]
    bytes; at depths 16 and 32 it always returns. *)
Theorem encoded_length (frames channels : nat) (audio_data : AudioBuffer)
  (bit_depth : Z) :
  has_shape frames channels audio_data ->
  bit_depth = 16 \/ bit_depth = 24 \/ bit_depth = 32 ->
  (bit_depth <> 24 ->
   exists b, convert_to_pcm_bytes audio_data bit_depth = Return b) /\
  (forall b, convert_to_pcm_bytes audio_data bit_depth = Return b ->
   Z.of_nat (List.length b)
   = Z.of_nat frames * Z.of_nat channels * (bit_depth / 8)).
Proof.
  intros Hs Hd. split.
  - intros H24. apply convert_16_32_returns. lia.
  - intros b. unfold convert_to_pcm_bytes.
    destruct Hd as [-> | [-> | ->]]; simpl.
    + intros [= <-]. unfold tobytes.
      rewrite length_flat_map_le_split, (length_samples _ _ _ _ _ Hs).
      change (16 / 8) with 2. lia.
    + intros Hb. apply pack24_length in Hb.
      rewrite (length_samples _ _ _ _ _ Hs) in Hb. simpl in Hb.
      change (24 / 8) with 3. lia.
    + intros [= <-]. unfold tobytes.
      rewrite length_flat_map_le_split, (length_samples _ _ _ _ _ Hs).
      change (32 / 8) with 4. lia.
Qed.

End Encoder.

Section EncoderClaims.
Context {R : Runtime}.

(** C1.  At bit depth 24 the sample -0.5 is scaled and cast to -4194303 and
    masked to 12582913, whose bit 23 is set.  [to_bytes(3, "little",
    signed=True)] does not take that value, so the encoder raises where the
    claim expects the three bytes 01 00 C0 of -4194303; it raises as well
    when the scalar has no [to_bytes] at all. *)
Theorem encode24_negative_sample_raises :
  astype 32 (scale 8388607 [[f32_minus_half]]) = [[-4194303]]
  /\ Z.land (-4194303) 16777215 = 12582913
  /\ le_split 3 (-4194303) = [x01; x00; xc0]
  /\ convert_to_pcm_bytes [[f32_minus_half]] 24
     = Raise (match scalar_to_bytes_missing with
              | Some msg => AttributeError msg
              | None => OverflowError "int too big to convert"
              end).
Proof.
  repeat split; try reflexivity.
  unfold convert_to_pcm_bytes. simpl. unfold scalar_to_bytes.
  destruct scalar_to_bytes_missing; reflexivity.
Qed.

(** C2.  A buffer of two frames and one channel holding 0.5 and -0.5,
    encoded at depth 24: no six bytes come back, the encoder raises on the
    second sample (the first, if the scalar has no [to_bytes]). *)
Theorem encode24_two_frames_no_bytes :
  has_shape 2 1 [[f32_half]; [f32_minus_half]]
  /\ convert_to_pcm_bytes [[f32_half]; [f32_minus_half]] 24
     = Raise (match scalar_to_bytes_missing with
              | Some msg => AttributeError msg
              | None => OverflowError "int too big to convert"
              end).
Proof.
  split.
  - split; [reflexivity|]. repeat constructor.
  - unfold convert_to_pcm_bytes. simpl. unfold scalar_to_bytes.
    destruct scalar_to_bytes_missing; reflexivity.
Qed.

(** C4.  A bit depth other than 16, 24 and 32 makes the encoder raise
    [ValueError]; it returns no bytes and falls back on no supported
    depth. *)
Theorem unsupported_bit_depth_raises (audio_data : AudioBuffer) (bit_depth : Z) :
  bit_depth <> 16 -> bit_depth <> 24 -> bit_depth <> 32 ->
  convert_to_pcm_bytes audio_data bit_depth
  = Raise (ValueError ("Unsupported bit depth: " ++ int_str bit_depth)).
Proof.
  intros H16 H24 H32. unfold convert_to_pcm_bytes.
  destruct (Z.eqb_spec bit_depth 16); [contradiction|].
  destruct (Z.eqb_spec bit_depth 24); [contradiction|].
  destruct (Z.eqb_spec bit_depth 32); [contradiction|].
  reflexivity.
Qed.

(** C5.  At depth 16 the sample 1.0 is encoded as the two little-endian
    bytes of 32767 (FF 7F) and -1.0 as those of -32767 (01 80): the product
    with 32767 cast to a 16-bit signed integer. *)
Theorem encode16_full_scale :
  astype 16 (scale 32767 [[f32_of_int 1]]) = [[32767]]
  /\ astype 16 (scale 32767 [[f32_of_int (-1)]]) = [[-32767]]
  /\ convert_to_pcm_bytes [[f32_of_int 1]] 16 = Return (le_split 2 32767)
  /\ convert_to_pcm_bytes [[f32_of_int (-1)]] 16 = Return (le_split 2 (-32767))
  /\ le_split 2 32767 = [xff; x7f]
  /\ le_split 2 (-32767) = [x01; x80].
Proof.
  repeat split; reflexivity.
Qed.

End EncoderClaims.

(** * Further properties of the encoder *)

Section EncoderFurther.
Context {R : Runtime}.

(** The sample values are the floats they are named after. *)
Lemma sample_values :
  f32_of_int 1 = S754_finite false 8388608 (-23)
  /\ f32_mul f32_half (f32_of_int 2) = f32_of_int 1
  /\ f32_mul f32_half (f32_of_int (-1)) = f32_minus_half
  /\ f64_one = S754_finite false 4503599627370496 (-52)
  /\ f64_095 = S754_finite false 8556839292003942 (-53).
Proof. repeat split; reflexivity. Qed.

Lemma land_mask_negative (z : Z) :
  -16777216 <= z < 0 -> Z.land z 16777215 = z + 16777216.
Proof.
  intros Hz. change 16777215 with (Z.ones 24).
  rewrite Z.land_ones by lia. change (2 ^ 24) with 16777216.
  rewrite <- (Z_mod_plus_full z 1 16777216).
  apply Z.mod_small. lia.
Qed.

Lemma pack24_raises_on_negative (samples : list Z) (acc : bytes) :
  Exists (fun z => -8388608 <= z < 0) samples ->
  exists e, pack24 samples acc = Raise e.
Proof.
  intros Hex. revert acc.
  induction Hex as [z rest Hz | z rest _ IH]; intros acc; cbn [pack24].
  - unfold scalar_to_bytes, int_to_bytes.
    destruct scalar_to_bytes_missing; [eauto|].
    rewrite land_mask_negative by lia. cbn [Z.of_nat Pos.of_succ_nat Pos.succ].
    change (8 * 3 - 1) with 23. change (2 ^ 23) with 8388608.
    destruct (Z.ltb_spec (z + 16777216) 8388608) as [Hlt|_]; [lia|].
    rewrite andb_false_r. eauto.
  - destruct (scalar_to_bytes 3 true _) as [b|e]; eauto.
Qed.

(** At depth 24 the encoder raises for every buffer that holds a sample
    whose scaled and cast value lies in [-2^23, 0): every negative sample of
    the range [-1, 1] that does not vanish in the cast. *)
Theorem encode24_raises_on_negative (audio_data : AudioBuffer) :
  Exists (fun z => -8388608 <= z < 0)
         (flat (astype 32 (scale 8388607 audio_data))) ->
  exists e, convert_to_pcm_bytes audio_data 24 = Raise e.
Proof.
  intros Hex. unfold convert_to_pcm_bytes. cbn [Z.eqb Pos.eqb].
  now apply pack24_raises_on_negative.
Qed.

(** At depth 24, with [to_bytes] at hand, the sample 0.5 gives the three
    bytes FF FF 3F of 4194303: the product 4194303.5 is cut toward zero, not
    rounded to 4194304. *)
Theorem encode24_half_truncates :
  scalar_to_bytes_missing = None ->
  f32_mul f32_half (f32_of_int 8388607) = S754_finite false 16777214 (-2)
  /\ astype 32 (scale 8388607 [[f32_half]]) = [[4194303]]
  /\ convert_to_pcm_bytes [[f32_half]] 24 = Return [xff; xff; x3f]
  /\ le_split 3 4194303 = [xff; xff; x3f]
  /\ le_split 3 4194304 = [x00; x00; x40].
Proof.
  intros Hm. repeat split; try reflexivity.
  revert Hm. unfold convert_to_pcm_bytes. simpl. unfold scalar_to_bytes.
  destruct scalar_to_bytes_missing; [discriminate | reflexivity].
Qed.


(** At depth 32 the factor 2147483647 is no [float32]: it becomes 2^31, so
    the sample 1.0 is scaled to 2^31, one more than the largest 32-bit
    integer, and what is stored is the runtime's answer for a cast out of
    range; -1.0 gives -2^31, which fits. *)
Theorem encode32_full_scale :
  f32_of_int 2147483647 = f32_of_int 2147483648
  /\ trunc (f32_mul (f32_of_int 1) (f32_of_int 2147483647)) = Some (2 ^ 31)
  /\ convert_to_pcm_bytes [[f32_of_int 1]] 32
     = Return (le_split 4 (wrap_signed 32
                 (cast_out_of_range 32 (f32_of_int 2147483648))))
  /\ convert_to_pcm_bytes [[f32_of_int (-1)]] 32
     = Return [x00; x00; x00; x80].
Proof.
  repeat split; reflexivity.
Qed.

End EncoderFurther.

(** * Properties of the upload client *)

Section Client.
Context {R : Runtime}.
Variables (w : World) (audio_bytes : bytes) (sr ch bd : Z) (url : string).

Let request : PostRequest := upload_request audio_bytes sr ch bd url.
Let sent : list event :=
  [Print "Sending audio to transcription API via multipart upload...";
   HttpPost request].

Lemma transcribe_audio_200 (r : Response) (v : pyvalue) :
  requests_post w request = Return r -> status_code r = 200 ->
  json r = Return v ->
  transcribe_audio w audio_bytes sr ch bd url = (sent, Return v).
Proof.
  intros Hr Hs Hj. unfold transcribe_audio. fold request.
  unfold call, print, bind, lift, try_except. rewrite Hr, Hs, Hj. reflexivity.
Qed.

Lemma transcribe_audio_200_undecodable (r : Response) (e : exn) :
  requests_post w request = Return r -> status_code r = 200 ->
  json r = Raise e -> is_RequestException e = true ->
  transcribe_audio w audio_bytes sr ch bd url
  = (sent ++ [Print ("Request failed: " ++ exn_str e)], Return PyNone).
Proof.
  intros Hr Hs Hj He. unfold transcribe_audio. fold request.
  unfold call, print, bind, lift, try_except, ret.
  rewrite Hr, Hs, Hj. simpl. rewrite He. reflexivity.
Qed.

Lemma transcribe_audio_error_status (r : Response) :
  requests_post w request = Return r -> status_code r <> 200 ->
  transcribe_audio w audio_bytes sr ch bd url
  = (sent ++ [Print ("API error: " ++ int_str (status_code r));
              Print (match json r with
                     | Return error_info => "Error details: " ++ py_str error_info
                     | Raise _ => "Response: " ++ text r
                     end)],
     Return PyNone).
Proof.
  intros Hr Hs. unfold transcribe_audio. fold request.
  unfold call, print, bind, lift, try_except, ret. rewrite Hr.
  destruct (Z.eqb_spec (status_code r) 200) as [|_]; [contradiction|].
  destruct (json r); reflexivity.
Qed.

Lemma transcribe_audio_transport_failure (e : exn) :
  requests_post w request = Raise e -> is_RequestException e = true ->
  transcribe_audio w audio_bytes sr ch bd url
  = (sent ++ [Print ("Request failed: " ++ exn_str e)], Return PyNone).
Proof.
  intros Hr He. unfold transcribe_audio. fold request.
  unfold call, print, bind, lift, try_except, ret. rewrite Hr. simpl.
  rewrite He. reflexivity.
Qed.

Lemma transcribe_audio_post_escapes (e : exn) :
  requests_post w request = Raise e -> is_RequestException e = false ->
  transcribe_audio w audio_bytes sr ch bd url = (sent, Raise e).
Proof.
  intros Hr He. unfold transcribe_audio. fold request.
  unfold call, print, bind, lift, try_except, ret. rewrite Hr. simpl.
  rewrite He. reflexivity.
Qed.

Lemma transcribe_audio_json_escapes (r : Response) (e : exn) :
  requests_post w request = Return r -> status_code r = 200 ->
  json r = Raise e -> is_RequestException e = false ->
  transcribe_audio w audio_bytes sr ch bd url = (sent, Raise e).
Proof.
  intros Hr Hs Hj He. unfold transcribe_audio. fold request.
  unfold call, print, bind, lift, try_except, ret.
  rewrite Hr, Hs, Hj. simpl. rewrite He. reflexivity.
Qed.

(** Where an exception that leaves [transcribe_audio] comes from. *)
Lemma transcribe_audio_raise_sources (e : exn) :
  snd (transcribe_audio w audio_bytes sr ch bd url) = Raise e ->
  is_RequestException e = false
  /\ (requests_post w request = Raise e
      \/ exists r, requests_post w request = Return r
                   /\ status_code r = 200 /\ json r = Raise e).
Proof.
  destruct (requests_post w request) as [r|e0] eqn:Hr.
  - destruct (Z.eq_dec (status_code r) 200) as [Hs|Hs].
    + destruct (json r) as [v|e1] eqn:Hj.
      * rewrite (transcribe_audio_200 r v Hr Hs Hj). discriminate.
      * destruct (is_RequestException e1) eqn:He.
        -- rewrite (transcribe_audio_200_undecodable r e1 Hr Hs Hj He).
           discriminate.
        -- rewrite (transcribe_audio_json_escapes r e1 Hr Hs Hj He).
           intros [= <-]. split; [assumption|]. right. exists r. auto.
    + rewrite (transcribe_audio_error_status r Hr Hs). discriminate.
  - destruct (is_RequestException e0) eqn:He.
    + rewrite (transcribe_audio_transport_failure e0 Hr He). discriminate.
    + rewrite (transcribe_audio_post_escapes e0 Hr He).
      intros [= <-]. auto.
Qed.

(** C3, as the code has it.  [transcribe_audio] returns the parsed body as
    it is on status 200; on another status it prints the status and the body
    (parsed, or as text) and returns [None]; on a [RequestException], from
    the transport or from [json()] on a body of status 200 that does not
    parse, it prints the error and returns [None].  It lets no
    [RequestException] through; an exception of another class raised by
    [requests.post], or by [json()] on a status 200, is not caught and
    leaves the function, and nothing else does. *)
Theorem transcribe_audio_outcomes :
  (forall r v, requests_post w request = Return r -> status_code r = 200 ->
     json r = Return v ->
     transcribe_audio w audio_bytes sr ch bd url = (sent, Return v))
  /\ (forall r, requests_post w request = Return r -> status_code r <> 200 ->
     transcribe_audio w audio_bytes sr ch bd url
     = (sent ++ [Print ("API error: " ++ int_str (status_code r));
                 Print (match json r with
                        | Return error_info =>
                            "Error details: " ++ py_str error_info
                        | Raise _ => "Response: " ++ text r
                        end)],
        Return PyNone))
  /\ (forall e, requests_post w request = Raise e ->
     is_RequestException e = true ->
     transcribe_audio w audio_bytes sr ch bd url
     = (sent ++ [Print ("Request failed: " ++ exn_str e)], Return PyNone))
  /\ (forall r e, requests_post w request = Return r -> status_code r = 200 ->
     json r = Raise e -> is_RequestException e = true ->
     transcribe_audio w audio_bytes sr ch bd url
     = (sent ++ [Print ("Request failed: " ++ exn_str e)], Return PyNone))
  /\ (forall e, requests_post w request = Raise e ->
     is_RequestException e = false ->
     transcribe_audio w audio_bytes sr ch bd url = (sent, Raise e))
  /\ (forall r e, requests_post w request = Return r -> status_code r = 200 ->
     json r = Raise e -> is_RequestException e = false ->
     transcribe_audio w audio_bytes sr ch bd url = (sent, Raise e))
  /\ (forall e, snd (transcribe_audio w audio_bytes sr ch bd url) = Raise e ->
     is_RequestException e = false
     /\ (requests_post w request = Raise e
         \/ exists r, requests_post w request = Return r
                      /\ status_code r = 200 /\ json r = Raise e)).
Proof.
  split; [exact transcribe_audio_200|].
  split; [exact transcribe_audio_error_status|].
  split; [exact transcribe_audio_transport_failure|].
  split; [exact transcribe_audio_200_undecodable|].
  split; [exact transcribe_audio_post_escapes|].
  split; [exact transcribe_audio_json_escapes|].
  exact transcribe_audio_raise_sources.
Qed.

End Client.

(** * Properties of the driver *)

Section ComputationLaws.
Context {A B : Type}.

Lemma bind_Return (t : list event) (a : A) (k : A -> IO B) :
  bind (t, Return a) k = (t ++ fst (k a), snd (k a)).
Proof. unfold bind. now destruct (k a). Qed.

Lemma bind_Raise (t : list event) (e : exn) (k : A -> IO B) :
  bind (t, Raise e) k = (t, Raise e).
Proof. reflexivity. Qed.

Lemma try_except_Return (t : list event) (a : A)
  (handler : exn -> option (IO A)) :
  try_except (t, Return a) handler = (t, Return a).
Proof. reflexivity. Qed.

(** A computation's first events stay first under [bind]. *)
Lemma bind_prefix (p : list event) (m : IO A) (k : A -> IO B) :
  (exists t, fst m = p ++ t) -> exists t, fst (bind m k) = p ++ t.
Proof.
  intros [t Ht]. destruct m as [t0 [a|e]]; simpl in Ht; subst t0.
  - rewrite bind_Return. simpl. rewrite <- app_assoc. eauto.
  - rewrite bind_Raise. simpl. eauto.
Qed.

End ComputationLaws.

Lemma try_except_prefix {A : Type} (p : list event) (m : IO A)
  (handler : exn -> option (IO A)) :
  (exists t, fst m = p ++ t) -> exists t, fst (try_except m handler) = p ++ t.
Proof.
  intros [t Ht]. destruct m as [t0 [a|e]]; simpl in Ht; subst t0.
  - rewrite try_except_Return. simpl. eauto.
  - unfold try_except. destruct (handler e) as [[t' r]|]; simpl; eauto.
    rewrite <- app_assoc. eauto.
Qed.

Section Driver.
Context {R : Runtime}.
Variables (w : World) (args : Args).

Let test_url : string := (api_url args ++ "/")%string.
Let testing : list event :=
  [Print ("Testing API connection to " ++ test_url ++ "...");
   HttpGet test_url 5].

Lemma probe_status (r : Response) :
  requests_get w test_url 5 = Return r ->
  probe w args
  = (testing ++ [Print (if status_code r =? 200 then "✓ API is accessible"
                        else "⚠ API returned status "
                             ++ int_str (status_code r))],
     Return tt).
Proof.
  intros Hr. unfold probe. fold test_url.
  unfold call, print, bind, try_except. rewrite Hr.
  destruct (status_code r =? 200); reflexivity.
Qed.

Lemma probe_transport_failure (e : exn) :
  requests_get w test_url 5 = Raise e -> is_RequestException e = true ->
  probe w args
  = (testing ++ [Print ("✗ Cannot connect to API: " ++ exn_str e);
                 Print "Make sure the Rust server is running on the specified URL"],
     Raise (SystemExit 1)).
Proof.
  intros Hr He. unfold probe. fold test_url.
  unfold call, print, bind, try_except, sys_exit. rewrite Hr. simpl.
  rewrite He. reflexivity.
Qed.

(** The recording step opens with the two lines of [record_audio]. *)
Lemma record_and_transcribe_starts :
  exists t, fst (record_and_transcribe w args)
            = [Print ("Recording for " ++ number_str (duration args)
                      ++ " seconds...");
               Print "Speak now!"] ++ t.
Proof.
  unfold record_and_transcribe. apply bind_prefix, try_except_prefix.
  unfold record_audio, print.
  rewrite bind_Return. cbn [fst snd app]. rewrite bind_Return.
  cbn [fst snd app]. eauto.
Qed.

(** C6.  The connectivity test is a GET of [api_url/] with a timeout of 5
    seconds.  An answer whose status is not 2xx is printed as a warning and
    the run goes on with the recording; a transport error is printed with the
    advice to check the server and ends the run with exit status 1. *)
Theorem probe_outcomes :
  list_devices args = false ->
  (forall r, requests_get w test_url 5 = Return r ->
     ~ (200 <= status_code r <= 299) ->
     main w args
     = (testing ++ [Print ("⚠ API returned status " ++ int_str (status_code r))]
        ++ fst (record_and_transcribe w args),
        snd (record_and_transcribe w args))
     /\ exists t, fst (record_and_transcribe w args)
                  = [Print ("Recording for " ++ number_str (duration args)
                            ++ " seconds...");
                     Print "Speak now!"] ++ t)
  /\ (forall e, requests_get w test_url 5 = Raise e ->
     is_RequestException e = true ->
     run w args
     = (testing ++ [Print ("✗ Cannot connect to API: " ++ exn_str e);
                    Print "Make sure the Rust server is running on the specified URL"],
        1)).
Proof.
  intros Hl. split.
  - intros r Hr Hs. split; [|exact record_and_transcribe_starts].
    unfold main. rewrite Hl, (probe_status r Hr), bind_Return.
    destruct (Z.eqb_spec (status_code r) 200) as [E|_]; [lia|].
    now rewrite <- app_assoc.
  - intros e Hr He. unfold run, main.
    rewrite Hl, (probe_transport_failure e Hr He), bind_Raise. reflexivity.
Qed.

(** C8.  With [--list-devices] the script prints the devices and ends with
    exit status 0; whether or not the listing succeeds, it tests no
    connection, records nothing and uploads nothing. *)
Theorem list_devices_only :
  list_devices args = true ->
  (forall devices, sd_query_devices w = Return devices ->
     run w args
     = ([Print "Available audio devices:"; QueryDevices; Print devices], 0))
  /\ existsb later_step (fst (run w args)) = false.
Proof.
  intros Hl. unfold run, main. rewrite Hl. unfold print, call, bind. split.
  - intros devices ->. reflexivity.
  - destruct (sd_query_devices w); reflexivity.
Qed.

End Driver.

Section Rendering.
Context {R : Runtime}.

Lemma segment_line_text (i : nat) (v : pyvalue) :
  is_segment v = true ->
  segment_line i v = Return ("  " ++ segment_text (Z.of_nat i + 1) v)%string.
Proof.
  unfold is_segment, segment_text, segment_fields, segment_line.
  destruct v as [| | | | | |d]; try discriminate. simpl.
  destruct (lookup "start" d) as [s|]; [|discriminate].
  destruct (lookup "end" d) as [e|]; [|discriminate].
  destruct (lookup "confidence" d) as [[| | |c| | |]|]; try discriminate.
  destruct (lookup "text" d) as [t|]; [|discriminate].
  reflexivity.
Qed.

Lemma print_segments_lines (segments : list pyvalue) (i : nat) :
  forallb is_segment segments = true ->
  print_segments i segments
  = (map Print (segment_lines (Z.of_nat i + 1) segments), Return tt).
Proof.
  revert i; induction segments as [|v rest IH]; intros i Hs.
  - reflexivity.
  - apply andb_prop in Hs as [Hv Hrest].
    cbn [print_segments segment_lines map].
    rewrite (segment_line_text i v Hv). unfold lift, print.
    rewrite bind_Return. cbn [fst snd app]. rewrite bind_Return.
    rewrite (IH (S i) Hrest). cbn [fst snd app].
    now replace (Z.of_nat (S i) + 1) with (Z.of_nat i + 1 + 1) by lia.
Qed.

Lemma render_segments (d : list (string * pyvalue)) (txt : pyvalue)
  (segments : list pyvalue) :
  lookup "text" d = Some txt ->
  lookup "segments" d = Some (PyList segments) ->
  forallb is_segment segments = true ->
  render (PyDict d)
  = (heading ++ Print ("Text: " ++ py_str txt)
     :: match segments with
        | [] => []
        | _ => Print (newline ++ "Segments:")
               :: map Print (segment_lines 1 segments)
        end,
     Return tt).
Proof.
  intros Ht Hs Hw. unfold render, print, lift, subscript, py_get.
  rewrite Ht, Hs. unfold bind at 1 2 3 4 5 6. cbn [app].
  destruct segments as [|v rest]; [reflexivity|].
  cbn [truthy]. unfold py_iter, ret, bind at 1 2 3. cbn [app].
  rewrite (print_segments_lines (v :: rest) 0 Hw). reflexivity.
Qed.

End Rendering.

Section Pipeline.
Context {R : Runtime}.
Variables (w : World) (args : Args).
Variables (t1 t2 : list event) (audio_data : AudioBuffer) (audio_bytes : bytes).

Hypothesis no_listing : list_devices args = false.
Hypothesis probed : probe w args = (t1, Return tt).
Hypothesis recorded :
  record_audio w (duration args) (sample_rate args) (channels args)
  = (t2, Return audio_data).
Hypothesis encoded :
  convert_to_pcm_bytes audio_data (bit_depth args) = Return audio_bytes.

Let request : PostRequest :=
  upload_request audio_bytes (sample_rate args) (channels args)
                 (bit_depth args) (api_url args).
Let converted : event :=
  Print ("Audio converted: " ++ int_str (Z.of_nat (List.length audio_bytes))
         ++ " bytes").

(** The run up to the answer of [transcribe_audio]. *)
Lemma main_after_upload (t3 : list event) (result : pyvalue) :
  transcribe_audio w audio_bytes (sample_rate args) (channels args)
                   (bit_depth args) (api_url args) = (t3, Return result) ->
  main w args
  = let tail := if truthy result then render result
                else print "Transcription failed!" ;; sys_exit 1 in
    (t1 ++ t2 ++ converted :: t3 ++ fst tail, snd tail).
Proof.
  intros Ht. unfold main. rewrite no_listing, probed, bind_Return.
  unfold record_and_transcribe. rewrite recorded, try_except_Return, bind_Return.
  unfold encode_and_transcribe. rewrite encoded. unfold lift, print, ret.
  rewrite bind_Return. cbn [fst snd app]. rewrite bind_Return.
  cbn [fst snd app]. rewrite try_except_Return, bind_Return.
  rewrite Ht, bind_Return. reflexivity.
Qed.

(** C7, as the code has it.  When the upload answers with a [dict] that has
    a text and a list of segments, the script prints the heading, the text
    and, for a list that is not empty, one line per segment: two spaces, then
    [index. [start-end] (confidence: c) text] with the confidence to two
    decimal places; it ends with exit status 0.  The segment of the example
    gives the line [  1. [0.0-1.0] (confidence: 0.95) test]. *)
Theorem segments_rendered (t3 : list event) (d : list (string * pyvalue))
  (txt : pyvalue) (segments : list pyvalue) :
  transcribe_audio w audio_bytes (sample_rate args) (channels args)
                   (bit_depth args) (api_url args) = (t3, Return (PyDict d)) ->
  lookup "text" d = Some txt ->
  lookup "segments" d = Some (PyList segments) ->
  forallb is_segment segments = true ->
  run w args
  = (t1 ++ t2 ++ converted :: t3 ++ heading
     ++ Print ("Text: " ++ py_str txt)
     :: match segments with
        | [] => []
        | _ => Print (newline ++ "Segments:")
               :: map Print (segment_lines 1 segments)
        end,
     0)
  /\ segment_lines 1 [example_segment]
     = ["  1. [0.0-1.0] (confidence: 0.95) test"%string].
Proof.
  intros Ht Htxt Hsegs Hw. split; [|reflexivity].
  unfold run. rewrite (main_after_upload t3 (PyDict d) Ht). cbv zeta.
  assert (truthy (PyDict d) = true) as ->
    by (destruct d; [discriminate Htxt | reflexivity]).
  rewrite (render_segments d txt segments Htxt Hsegs Hw). reflexivity.
Qed.

(** C10.  When the upload answers 200 with the empty object,
    [transcribe_audio] returns that empty [dict], which is not [None]; the
    test [if result] of [main] takes it for a failure all the same, prints
    [Transcription failed!] and exits with status 1. *)
Theorem empty_result_reported_as_failure (r : Response) :
  requests_post w request = Return r ->
  status_code r = 200 ->
  json r = Return (PyDict []) ->
  snd (transcribe_audio w audio_bytes (sample_rate args) (channels args)
                        (bit_depth args) (api_url args))
  = Return (PyDict [])
  /\ PyDict [] <> PyNone
  /\ run w args
     = (t1 ++ t2
        ++ [converted;
            Print "Sending audio to transcription API via multipart upload...";
            HttpPost request;
            Print "Transcription failed!"],
        1).
Proof.
  intros Hr Hs Hj.
  pose proof (transcribe_audio_200 w audio_bytes (sample_rate args)
                (channels args) (bit_depth args) (api_url args) r (PyDict [])
                Hr Hs Hj) as Ht.
  split; [now rewrite Ht|]. split; [discriminate|].
  unfold run. rewrite (main_after_upload _ _ Ht). reflexivity.
Qed.

End Pipeline.

Section Determinism.
Context {R : Runtime}.

Lemma uploads_app (t t' : list event) :
  uploads (t ++ t') = (uploads t ++ uploads t')%list.
Proof. unfold uploads. apply flat_map_app. Qed.

Lemma uploads_bind {A B : Type} (m : IO A) (k : A -> IO B) :
  uploads (fst (bind m k))
  = (uploads (fst m)
     ++ match snd m with
        | Return a => uploads (fst (k a))
        | Raise _ => []
        end)%list.
Proof.
  destruct m as [t [a|e]].
  - rewrite bind_Return. cbn [fst snd]. apply uploads_app.
  - rewrite bind_Raise. cbn [fst snd]. now rewrite app_nil_r.
Qed.

Lemma uploads_print_segments (segments : list pyvalue) (i : nat) :
  uploads (fst (print_segments i segments)) = [].
Proof.
  revert i; induction segments as [|v rest IH]; intros i; [reflexivity|].
  cbn [print_segments]. rewrite uploads_bind.
  destruct (segment_line i v); cbn [lift fst snd uploads flat_map app];
    [|reflexivity].
  rewrite uploads_bind. cbn [print fst snd uploads flat_map app]. apply IH.
Qed.

Lemma uploads_render (result : pyvalue) : uploads (fst (render result)) = [].
Proof.
  unfold render. repeat (rewrite uploads_bind; cbn [print lift fst snd uploads flat_map app]).
  destruct (subscript result "text"); [|reflexivity].
  repeat (rewrite uploads_bind; cbn [print lift fst snd uploads flat_map app]).
  destruct (py_get result "segments") as [segs|]; [|reflexivity].
  destruct (truthy segs); [|reflexivity].
  repeat (rewrite uploads_bind; cbn [print lift fst snd uploads flat_map app]).
  destruct (subscript result "segments") as [segs'|]; [|reflexivity].
  repeat (rewrite uploads_bind; cbn [print lift fst snd uploads flat_map app]).
  destruct (py_iter segs'); [|reflexivity].
  apply uploads_print_segments.
Qed.

Lemma uploads_transcribe_audio (w : World) (audio_bytes : bytes)
  (sr ch bd : Z) (url : string) :
  uploads (fst (transcribe_audio w audio_bytes sr ch bd url)) = [audio_bytes].
Proof.
  unfold transcribe_audio, call, print, lift, ret, bind, try_except.
  destruct (requests_post w _) as [r|e].
  - destruct (status_code r =? 200).
    + destruct (json r) as [v|e]; [reflexivity|].
      cbn. destruct (is_RequestException e); reflexivity.
    + destruct (json r); reflexivity.
  - cbn. destruct (is_RequestException e); reflexivity.
Qed.

Lemma uploads_encode_and_transcribe (w : World) (args : Args)
  (audio_data : AudioBuffer) :
  uploads (fst (encode_and_transcribe w args audio_data))
  = match convert_to_pcm_bytes audio_data (bit_depth args) with
    | Return audio_bytes => [audio_bytes]
    | Raise _ => []
    end.
Proof.
  unfold encode_and_transcribe.
  destruct (convert_to_pcm_bytes audio_data (bit_depth args)) as [b|e].
  - unfold lift, print, ret. rewrite bind_Return. cbn [fst snd app].
    rewrite bind_Return. cbn [fst snd app].
    rewrite try_except_Return, uploads_bind. cbn [fst snd uploads flat_map app].
    rewrite uploads_bind, uploads_transcribe_audio.
    destruct (snd (transcribe_audio _ _ _ _ _ _)) as [v|]; [|reflexivity].
    destruct (truthy v); [now rewrite uploads_render|reflexivity].
  - unfold lift. rewrite bind_Raise. unfold try_except.
    destruct (is_Exception e); reflexivity.
Qed.

(** C9.  The encoder's outcome is fixed by the buffer and the bit depth:
    two runs on the same buffer at the same depth, whatever the server, the
    URL or the other arguments are, end the conversion alike and upload the
    same bytes. *)
Theorem encoding_deterministic (w1 w2 : World) (args1 args2 : Args)
  (audio_data : AudioBuffer) :
  bit_depth args1 = bit_depth args2 ->
  convert_to_pcm_bytes audio_data (bit_depth args1)
  = convert_to_pcm_bytes audio_data (bit_depth args2)
  /\ uploads (fst (encode_and_transcribe w1 args1 audio_data))
     = uploads (fst (encode_and_transcribe w2 args2 audio_data)).
Proof.
  intros Hd. split; [now rewrite Hd|].
  now rewrite !uploads_encode_and_transcribe, Hd.
Qed.

End Determinism.

(** * Round trip and composition of the encoder *)

Section RoundTrip.
Context {R : Runtime}.

Lemma byte_of_Z_value (z : Z) : Z.of_N (Byte.to_N (byte_of_Z z)) = z mod 256.
Proof.
  unfold byte_of_Z.
  pose proof (Z.mod_pos_bound z 256 eq_refl) as Hb.
  destruct (Byte.of_N (Z.to_N (z mod 256))) as [b|] eqn:E.
  - apply Byte.to_of_N in E. rewrite E. apply Z2N.id. lia.
  - apply Byte.of_N_None_iff in E. lia.
Qed.

Lemma le_combine_split (n : nat) (z : Z) :
  le_combine (le_split n z) = z mod 2 ^ (8 * Z.of_nat n).
Proof.
  revert z; induction n as [|n IH]; intros z.
  - cbn. now rewrite Z.mod_1_r.
  - cbn [le_split le_combine]. rewrite byte_of_Z_value, IH, Z.shiftr_div_pow2 by lia.
    replace (8 * Z.of_nat (S n)) with (8 + 8 * Z.of_nat n) by lia.
    rewrite Z.pow_add_r by lia. change (2 ^ 8) with 256.
    rewrite Z.rem_mul_r by lia. reflexivity.
Qed.

Lemma wrap_signed_mod (bits z : Z) :
  0 < bits -> int_min bits <= z <= int_max bits ->
  wrap_signed bits (z mod 2 ^ bits) = z.
Proof.
  unfold int_min, int_max, wrap_signed. intros Hb Hz.
  assert (2 ^ bits = 2 * 2 ^ (bits - 1)) as Hp.
  { rewrite <- Z.pow_succ_r by lia. f_equal. lia. }
  rewrite Zplus_mod_idemp_l, Z.mod_small by lia. lia.
Qed.

Lemma wrap_signed_range (bits z : Z) :
  0 < bits -> int_min bits <= wrap_signed bits z <= int_max bits.
Proof.
  unfold int_min, int_max, wrap_signed. intros Hb.
  assert (2 ^ bits = 2 * 2 ^ (bits - 1)) as Hp.
  { rewrite <- Z.pow_succ_r by lia. f_equal. lia. }
  assert (0 < 2 ^ bits) as Hpos by (apply Z.pow_pos_nonneg; lia).
  pose proof (Z.mod_pos_bound (z + 2 ^ (bits - 1)) (2 ^ bits) Hpos). lia.
Qed.

Lemma cast_int_range (bits : Z) (f : float32) :
  0 < bits -> int_min bits <= cast_int bits f <= int_max bits.
Proof.
  intros Hb. unfold cast_int.
  destruct (trunc f) as [z|]; [|now apply wrap_signed_range].
  destruct (_ && _) eqn:E; [|now apply wrap_signed_range].
  apply andb_prop in E as [E1 E2]. lia.
Qed.

Lemma read_words_flat_map (width : nat) (l : list Z) (rest : bytes) :
  (0 < width)%nat ->
  Forall (fun z => int_min (8 * Z.of_nat width) <= z
                   <= int_max (8 * Z.of_nat width)) l ->
  read_words width (List.length l) (flat_map (le_split width) l ++ rest) = l.
Proof.
  intros Hw Hl. induction Hl as [|z l Hz _ IH]; [reflexivity|].
  cbn [flat_map List.length read_words]. rewrite <- app_assoc.
  rewrite firstn_app, length_le_split, Nat.sub_diag, firstn_O, app_nil_r.
  rewrite (firstn_all2 (le_split width z)) by (rewrite length_le_split; lia).
  rewrite skipn_app, length_le_split, Nat.sub_diag, skipn_O.
  rewrite (skipn_all2 (le_split width z)) by (rewrite length_le_split; lia).
  cbn [app]. rewrite IH, le_combine_split, wrap_signed_mod by lia.
  reflexivity.
Qed.

Lemma read_pcm_tobytes (width : nat) (pcm_data : list (list Z)) :
  (0 < width)%nat ->
  Forall (fun z => int_min (8 * Z.of_nat width) <= z
                   <= int_max (8 * Z.of_nat width)) (flat pcm_data) ->
  read_pcm width (tobytes width pcm_data) = flat pcm_data.
Proof.
  intros Hw Hl. unfold read_pcm, tobytes.
  rewrite length_flat_map_le_split, Nat.mul_comm, Nat.div_mul by lia.
  rewrite <- (app_nil_r (flat_map _ _)). now apply read_words_flat_map.
Qed.

Lemma astype_in_range (bits k : Z) (a : AudioBuffer) :
  0 < bits ->
  Forall (fun z => int_min bits <= z <= int_max bits)
         (flat (astype bits (scale k a))).
Proof.
  intros Hb. unfold flat, astype, scale.
  induction a as [|row a IH]; cbn [map List.concat]; [constructor|].
  apply Forall_app. split; [|exact IH].
  rewrite map_map. apply Forall_forall. intros z Hz.
  apply in_map_iff in Hz as [x [<- _]]. now apply cast_int_range.
Qed.

(** At depths 16 and 32 the encoder returns for every buffer, and the bytes
    read back as signed little-endian words of 2 and 4 bytes are the cast
    samples, in row-major order: no sample is lost or mixed with another. *)
Theorem pcm_round_trip (audio_data : AudioBuffer) :
  (exists b, convert_to_pcm_bytes audio_data 16 = Return b
             /\ read_pcm 2 b = flat (astype 16 (scale 32767 audio_data)))
  /\ (exists b, convert_to_pcm_bytes audio_data 32 = Return b
                /\ read_pcm 4 b
                   = flat (astype 32 (scale 2147483647 audio_data))).
Proof.
  split; eexists; (split; [reflexivity|]); apply read_pcm_tobytes; try lia.
  - apply (astype_in_range 16); lia.
  - apply (astype_in_range 32); lia.
Qed.
End RoundTrip.

Section Encoder24.
Context {R : Runtime}.

Lemma pack24_app (s1 s2 : list Z) (acc : bytes) :
  pack24 (s1 ++ s2) acc
  = match pack24 s1 acc with
    | Return b => pack24 s2 b
    | Raise e => Raise e
    end.
Proof.
  revert acc; induction s1 as [|z s1 IH]; intros acc; [reflexivity|].
  cbn [app pack24]. destruct (scalar_to_bytes 3 true _); [apply IH|reflexivity].
Qed.

Lemma pack24_acc (samples : list Z) (acc : bytes) :
  pack24 samples acc
  = match pack24 samples [] with
    | Return b => Return (acc ++ b)
    | Raise e => Raise e
    end.
Proof.
  revert acc; induction samples as [|z samples IH]; intros acc.
  - cbn. now rewrite app_nil_r.
  - cbn [pack24]. destruct (scalar_to_bytes 3 true _) as [b|e]; [|reflexivity].
    rewrite (IH (acc ++ b)), (IH ([] ++ b)).
    destruct (pack24 samples []); [|reflexivity].
    cbn [app]. now rewrite app_assoc.
Qed.

Lemma int_to_bytes_masked (z : Z) :
  int_to_bytes 3 true (Z.land z 16777215)
  = if Z.land z 16777215 <? 8388608
    then Return (le_split 3 (Z.land z 16777215))
    else Raise (OverflowError "int too big to convert").
Proof.
  unfold int_to_bytes. cbn [Z.of_nat Pos.of_succ_nat Pos.succ].
  change (8 * 3 - 1) with 23.
  assert (0 <= Z.land z 16777215) by (apply Z.land_nonneg; lia).
  rewrite (proj2 (Z.leb_le (- 2 ^ 23) (Z.land z 16777215))) by lia.
  reflexivity.
Qed.

Lemma pack24_with_to_bytes (samples : list Z) :
  scalar_to_bytes_missing = None ->
  pack24 samples []
  = if forallb (fun z => Z.land z 16777215 <? 8388608) samples
    then Return (flat_map (fun z => le_split 3 (Z.land z 16777215)) samples)
    else Raise (OverflowError "int too big to convert").
Proof.
  intros Hm. induction samples as [|z samples IH]; [reflexivity|].
  cbn [pack24 forallb flat_map]. unfold scalar_to_bytes. rewrite Hm.
  rewrite int_to_bytes_masked.
  destruct (Z.land z 16777215 <? 8388608); [|reflexivity].
  rewrite pack24_acc, IH. cbn [andb app].
  destruct (forallb _ samples); reflexivity.
Qed.

Lemma pack24_without_to_bytes (samples : list Z) (msg : string) :
  scalar_to_bytes_missing = Some msg ->
  pack24 samples []
  = match samples with
    | [] => Return []
    | _ :: _ => Raise (AttributeError msg)
    end.
Proof.
  intros Hm. destruct samples as [|z samples]; [reflexivity|].
  cbn [pack24]. unfold scalar_to_bytes. now rewrite Hm.
Qed.

(** The outcome of the 24-bit branch for every buffer.  With [to_bytes] on
    the scalar it returns the three low bytes of each masked sample when
    every masked sample is below 2^23, and raises [OverflowError] otherwise;
    without [to_bytes] it raises [AttributeError] unless the buffer holds no
    sample, for which it returns no bytes. *)
Theorem encode24_outcome (audio_data : AudioBuffer) :
  let samples := flat (astype 32 (scale 8388607 audio_data)) in
  convert_to_pcm_bytes audio_data 24
  = match scalar_to_bytes_missing with
    | Some msg =>
        match samples with
        | [] => Return []
        | _ :: _ => Raise (AttributeError msg)
        end
    | None =>
        if forallb (fun z => Z.land z 16777215 <? 8388608) samples
        then Return (flat_map (fun z => le_split 3 (Z.land z 16777215)) samples)
        else Raise (OverflowError "int too big to convert")
    end.
Proof.
  intros samples. unfold convert_to_pcm_bytes. cbn [Z.eqb Pos.eqb].
  fold samples. destruct scalar_to_bytes_missing as [msg|] eqn:Hm.
  - now apply pack24_without_to_bytes.
  - now apply pack24_with_to_bytes.
Qed.

Lemma flat_samples_app (bits k : Z) (a b : AudioBuffer) :
  flat (astype bits (scale k (a ++ b)))
  = (flat (astype bits (scale k a)) ++ flat (astype bits (scale k b)))%list.
Proof.
  unfold flat, astype, scale. now rewrite !map_app, concat_app.
Qed.

(** Encoding goes frame by frame: the encoding of two buffers one after the
    other is the encoding of the first followed by that of the second, and it
    raises what the first raises, else what the second raises. *)
Theorem encode_frames_append (a b : AudioBuffer) (bit_depth : Z) :
  convert_to_pcm_bytes (a ++ b) bit_depth
  = match convert_to_pcm_bytes a bit_depth with
    | Return x =>
        match convert_to_pcm_bytes b bit_depth with
        | Return y => Return (x ++ y)
        | Raise e => Raise e
        end
    | Raise e => Raise e
    end.
Proof.
  unfold convert_to_pcm_bytes.
  destruct (bit_depth =? 16); [|destruct (bit_depth =? 24);
                                 [|destruct (bit_depth =? 32)]].
  - unfold tobytes. now rewrite flat_samples_app, flat_map_app.
  - rewrite flat_samples_app, pack24_app.
    destruct (pack24 (flat (astype 32 (scale 8388607 a))) []) as [x|e];
      [|reflexivity].
    apply pack24_acc.
  - unfold tobytes. now rewrite flat_samples_app, flat_map_app.
  - reflexivity.
Qed.

(** At depth 32 every buffer is scaled by 2^31, not by 2^31 - 1: the factor
    2147483647 rounds to 2147483648 as a [float32].  A sample whose product
    exceeds the largest 32-bit integer is stored as the runtime's answer for
    a cast out of range, and the full-scale sample 1.0 is such a sample. *)
Theorem encode32_scales_by_2_31 (audio_data : AudioBuffer) :
  scale 2147483647 audio_data = scale (2 ^ 31) audio_data
  /\ convert_to_pcm_bytes audio_data 32
     = Return (tobytes 4 (astype 32 (scale (2 ^ 31) audio_data)))
  /\ (forall x z,
        trunc (f32_mul x (f32_of_int 2147483647)) = Some z ->
        int_max 32 < z ->
        cast_int 32 (f32_mul x (f32_of_int 2147483647))
        = wrap_signed 32
            (cast_out_of_range 32 (f32_mul x (f32_of_int (2 ^ 31)))))
  /\ trunc (f32_mul (f32_of_int 1) (f32_of_int 2147483647)) = Some (2 ^ 31)
  /\ int_max 32 < 2 ^ 31.
Proof.
  split; [reflexivity|]. split; [reflexivity|]. split; [|split; reflexivity].
  intros x z Ht Hz. unfold cast_int. rewrite Ht.
  destruct (Z.leb_spec z (int_max 32)); [lia|]. now rewrite andb_false_r.
Qed.

End Encoder24.

(** * The recorder *)

Section Recorder.
Variables (w : World) (duration : number) (sample_rate channels : Z).

Let opening : list event :=
  [Print ("Recording for " ++ number_str duration ++ " seconds...");
   Print "Speak now!"].

(** [record_audio] returns a buffer exactly when the frame count can be
    computed, [sd.rec] returns that buffer and [sd.wait] returns; it has then
    printed its two opening lines, asked for [int(duration * sample_rate)]
    frames, waited and printed [Recording complete!]. *)
Theorem record_audio_returns_iff (t : list event) (audio_data : AudioBuffer) :
  record_audio w duration sample_rate channels = (t, Return audio_data)
  <-> exists frames,
        frame_count duration sample_rate = Return frames
        /\ sd_rec w frames sample_rate channels = Return audio_data
        /\ sd_wait w = Return tt
        /\ t = opening ++ [Rec frames sample_rate channels; Wait;
                           Print "Recording complete!"].
Proof.
  unfold record_audio, print, lift, call, ret, bind. split.
  - destruct (frame_count duration sample_rate) as [frames|e] eqn:Hf;
      [|discriminate].
    destruct (sd_rec w frames sample_rate channels) as [a|e] eqn:Hr;
      [|discriminate].
    destruct (sd_wait w) as [[]|e] eqn:Hw; [|discriminate].
    intros [= <- <-]. exists frames. repeat split; assumption.
  - intros [frames [-> [-> [-> ->]]]]. reflexivity.
Qed.

End Recorder.

(** A duration that is NaN or infinite makes the frame count raise
    ([ValueError] or [OverflowError]), so [record_audio] raises before it
    asks the sound device for anything. *)
Theorem record_audio_duration_not_finite (f : float64) (sample_rate : Z) :
  f = S754_nan \/ (exists s, f = S754_infinity s) ->
  exists e, is_Exception e = true
            /\ forall w channels,
                 record_audio w (NFloat f) sample_rate channels
                 = ([Print ("Recording for " ++ float_repr f ++ " seconds...");
                     Print "Speak now!"], Raise e).
Proof.
  intros Hf.
  assert (exists e, frame_count (NFloat f) sample_rate = Raise e
                    /\ is_Exception e = true) as [e [He Hex]].
  { unfold frame_count, f64_mul.
    destruct (f64_of_int sample_rate) as [s'| s' | | s' m' e'];
      destruct Hf as [-> | [s ->]]; cbn; eauto. }
  exists e. split; [assumption|].
  intros w channels. unfold record_audio, print, lift, call, ret, bind.
  rewrite He. reflexivity.
Qed.

(** * What the client lets through *)

Section ClientEscapes.
Context {R : Runtime}.
Variables (w : World) (audio_bytes : bytes) (sr ch bd : Z) (url : string).

Let request : PostRequest := upload_request audio_bytes sr ch bd url.

(** What escapes [transcribe_audio]: it raises [e] exactly when [e] is no
    [RequestException] and either [requests.post] raised it or the answer
    had status 200 and its [json()] raised it.  Whatever [json()] raises on
    another status is swallowed. *)
Theorem transcribe_audio_raises_iff (e : exn) :
  snd (transcribe_audio w audio_bytes sr ch bd url) = Raise e
  <-> is_RequestException e = false
      /\ (requests_post w request = Raise e
          \/ exists r, requests_post w request = Return r
                       /\ status_code r = 200 /\ json r = Raise e).
Proof.
  unfold transcribe_audio. fold request.
  unfold call, print, lift, ret, bind, try_except.
  destruct (requests_post w request) as [r|e0] eqn:Hr.
  - destruct (Z.eqb_spec (status_code r) 200) as [Hs|Hs].
    + destruct (json r) as [v|e1] eqn:Hj; cbn.
      * split; [discriminate|]. intros [_ [H|[r' [[= <-] [_ H]]]]]; congruence.
      * destruct (is_RequestException e1) eqn:He; cbn.
        -- split; [discriminate|].
           intros [Hn [H|[r' [[= <-] [_ H]]]]]; congruence.
        -- split.
           ++ intros [= <-]. split; [assumption|]. right. exists r. auto.
           ++ intros [_ [H|[r' [[= <-] [_ H]]]]]; congruence.
    + destruct (json r); cbn;
        (split; [discriminate|]);
        intros [_ [H|[r' [[= <-] [H' _]]]]]; congruence.
  - cbn. destruct (is_RequestException e0) eqn:He; cbn.
    + split; [discriminate|].
      intros [Hn [[= <-]|[r' [H _]]]]; congruence.
    + split.
      * intros [= <-]. auto.
      * intros [_ [[= <-]|[r' [H _]]]]; [reflexivity | discriminate].
Qed.

(** Whatever the server does, [transcribe_audio] makes one request and no
    second try: a POST to [api_url/transcribe/upload] with a timeout of 30
    seconds, the bytes as the file [audio.pcm] of the field [audio], and the
    three numbers in decimal. *)
Theorem transcribe_audio_posts_once :
  calls (fst (transcribe_audio w audio_bytes sr ch bd url)) = [HttpPost request]
  /\ post_url request = (url ++ "/transcribe/upload")%string
  /\ post_timeout request = 30
  /\ post_files request
     = [("audio", ("audio.pcm", audio_bytes, "application/octet-stream"))]%string
  /\ post_data request
     = [("sample_rate", int_str sr); ("channels", int_str ch);
        ("bit_depth", int_str bd)]%string.
Proof.
  split; [|repeat split].
  unfold transcribe_audio. fold request.
  unfold call, print, lift, ret, bind, try_except.
  destruct (requests_post w request) as [r|e].
  - destruct (status_code r =? 200).
    + destruct (json r) as [v|e]; [reflexivity|].
      cbn. destruct (is_RequestException e); reflexivity.
    + destruct (json r); reflexivity.
  - cbn. destruct (is_RequestException e); reflexivity.
Qed.

End ClientEscapes.

(** * The calls of a run *)

Section Calls.
Context {R : Runtime}.

Lemma calls_app (t t' : list event) :
  calls (t ++ t') = (calls t ++ calls t')%list.
Proof. unfold calls. apply filter_app. Qed.

Lemma calls_bind {A B : Type} (m : IO A) (k : A -> IO B) :
  calls (fst (bind m k))
  = (calls (fst m)
     ++ match snd m with
        | Return a => calls (fst (k a))
        | Raise _ => []
        end)%list.
Proof.
  destruct m as [t [a|e]].
  - rewrite bind_Return. cbn [fst snd]. apply calls_app.
  - rewrite bind_Raise. cbn [fst snd]. now rewrite app_nil_r.
Qed.

Lemma calls_print_segments (segments : list pyvalue) (i : nat) :
  calls (fst (print_segments i segments)) = [].
Proof.
  revert i; induction segments as [|v rest IH]; intros i; [reflexivity|].
  cbn [print_segments]. rewrite calls_bind.
  destruct (segment_line i v); cbn [lift fst snd calls filter app];
    [|reflexivity].
  rewrite calls_bind. cbn [print fst snd calls filter is_print negb app].
  apply IH.
Qed.

Lemma calls_render (result : pyvalue) : calls (fst (render result)) = [].
Proof.
  unfold render.
  repeat (rewrite calls_bind;
          cbn [print lift fst snd calls filter is_print negb app]).
  destruct (subscript result "text"); [|reflexivity].
  repeat (rewrite calls_bind;
          cbn [print lift fst snd calls filter is_print negb app]).
  destruct (py_get result "segments") as [segs|]; [|reflexivity].
  destruct (truthy segs); [|reflexivity].
  repeat (rewrite calls_bind;
          cbn [print lift fst snd calls filter is_print negb app]).
  destruct (subscript result "segments") as [segs'|]; [|reflexivity].
  repeat (rewrite calls_bind;
          cbn [print lift fst snd calls filter is_print negb app]).
  destruct (py_iter segs'); [|reflexivity].
  apply calls_print_segments.
Qed.

Lemma calls_transcribe_audio (w : World) (audio_bytes : bytes)
  (sr ch bd : Z) (url : string) :
  calls (fst (transcribe_audio w audio_bytes sr ch bd url))
  = [HttpPost (upload_request audio_bytes sr ch bd url)].
Proof.
  unfold transcribe_audio, call, print, lift, ret, bind, try_except.
  destruct (requests_post w _) as [r|e].
  - destruct (status_code r =? 200).
    + destruct (json r) as [v|e]; [reflexivity|].
      cbn. destruct (is_RequestException e); reflexivity.
    + destruct (json r); reflexivity.
  - cbn. destruct (is_RequestException e); reflexivity.
Qed.

Lemma calls_encode_and_transcribe (w : World) (args : Args)
  (audio_data : AudioBuffer) :
  calls (fst (encode_and_transcribe w args audio_data))
  = match convert_to_pcm_bytes audio_data (bit_depth args) with
    | Return audio_bytes =>
        [HttpPost (upload_request audio_bytes (sample_rate args)
                     (channels args) (bit_depth args) (api_url args))]
    | Raise _ => []
    end.
Proof.
  unfold encode_and_transcribe.
  destruct (convert_to_pcm_bytes audio_data (bit_depth args)) as [b|e].
  - unfold lift, print, ret. rewrite bind_Return. cbn [fst snd app].
    rewrite bind_Return. cbn [fst snd app].
    rewrite try_except_Return, calls_bind.
    cbn [fst snd calls filter is_print negb app].
    rewrite calls_bind, calls_transcribe_audio.
    destruct (snd (transcribe_audio _ _ _ _ _ _)) as [v|]; [|reflexivity].
    destruct (truthy v); [now rewrite calls_render|reflexivity].
  - unfold lift. rewrite bind_Raise. unfold try_except.
    destruct (is_Exception e); reflexivity.
Qed.

Lemma calls_record_and_transcribe (w : World) (args : Args) :
  calls (fst (record_and_transcribe w args))
  = match frame_count (duration args) (sample_rate args) with
    | Raise _ => []
    | Return frames =>
        Rec frames (sample_rate args) (channels args)
        :: match sd_rec w frames (sample_rate args) (channels args) with
           | Raise _ => []
           | Return audio_data =>
               Wait
               :: match sd_wait w with
                  | Raise _ => []
                  | Return _ =>
                      calls (fst (encode_and_transcribe w args audio_data))
                  end
           end
    end.
Proof.
  unfold record_and_transcribe, record_audio, print, lift, call, ret, bind,
    try_except.
  destruct (frame_count (duration args) (sample_rate args)) as [frames|e].
  - destruct (sd_rec w frames (sample_rate args) (channels args)) as [a|e].
    + destruct (sd_wait w) as [[]|e].
      * destruct (encode_and_transcribe w args a) as [t' r']. reflexivity.
      * cbn. destruct (is_Exception e); reflexivity.
    + cbn. destruct (is_Exception e); reflexivity.
  - cbn. destruct (is_Exception e); reflexivity.
Qed.

(** All that [main] ever asks of the libraries, in order.  With
    [--list-devices] it is the device query alone.  Otherwise it is one GET
    of [api_url/]; then, if that returned, one recording of
    [int(duration * sample_rate)] frames and the wait for it; then, if the
    buffer was encoded, one POST of exactly those bytes with the sample rate,
    channels and bit depth of the command line.  Nothing is asked twice, and
    nothing is uploaded that was not recorded and encoded in this run. *)
Theorem main_calls (w : World) (args : Args) :
  calls (fst (main w args))
  = if list_devices args then [QueryDevices]
    else
      HttpGet (api_url args ++ "/") 5
      :: match requests_get w (api_url args ++ "/") 5 with
         | Raise _ => []
         | Return _ =>
           match frame_count (duration args) (sample_rate args) with
           | Raise _ => []
           | Return frames =>
             Rec frames (sample_rate args) (channels args)
             :: match sd_rec w frames (sample_rate args) (channels args) with
                | Raise _ => []
                | Return audio_data =>
                  Wait
                  :: match sd_wait w with
                     | Raise _ => []
                     | Return _ =>
                       match convert_to_pcm_bytes audio_data (bit_depth args) with
                       | Raise _ => []
                       | Return audio_bytes =>
                           [HttpPost (upload_request audio_bytes
                                        (sample_rate args) (channels args)
                                        (bit_depth args) (api_url args))]
                       end
                     end
                end
           end
         end.
Proof.
  unfold main. destruct (list_devices args).
  - unfold print, call, bind. destruct (sd_query_devices w); reflexivity.
  - rewrite calls_bind. unfold probe, print, call, bind, try_except.
    destruct (requests_get w (api_url args ++ "/") 5) as [r|e].
    + destruct (status_code r =? 200);
        cbn [fst snd calls filter is_print negb app];
        rewrite calls_record_and_transcribe;
        destruct (frame_count _ _) as [frames|]; try reflexivity;
        destruct (sd_rec _ _ _ _) as [a|]; try reflexivity;
        destruct (sd_wait w); try reflexivity;
        now rewrite calls_encode_and_transcribe.
    + cbn. destruct (is_RequestException e); reflexivity.
Qed.
End Calls.

(** * Fatal failures *)

Section Failures.
Context {R : Runtime}.
Variables (w : World) (args : Args) (t1 : list event).

Hypothesis no_listing : list_devices args = false.
Hypothesis probed : probe w args = (t1, Return tt).

(** When the recording raises an [Exception], [main] prints
    [Recording failed:] with the error and the advice about the microphone,
    and the run ends with exit status 1 without encoding or uploading. *)
Theorem recording_failure_is_fatal (t2 : list event) (e : exn) :
  record_audio w (duration args) (sample_rate args) (channels args)
  = (t2, Raise e) ->
  is_Exception e = true ->
  run w args
  = (t1 ++ t2
     ++ [Print ("Recording failed: " ++ exn_str e);
         Print "Make sure you have a working microphone and the required permissions"],
     1).
Proof.
  intros Hrec He. unfold run, main. rewrite no_listing, probed, bind_Return.
  unfold record_and_transcribe. rewrite Hrec. unfold try_except. rewrite He.
  reflexivity.
Qed.

Lemma convert_raises_Exception (audio_data : AudioBuffer) (bit_depth : Z)
  (e : exn) :
  convert_to_pcm_bytes audio_data bit_depth = Raise e -> is_Exception e = true.
Proof.
  unfold convert_to_pcm_bytes.
  destruct (bit_depth =? 16); [discriminate|].
  destruct (bit_depth =? 24).
  - generalize (@nil byte) as acc.
    induction (flat (astype 32 (scale 8388607 audio_data))) as [|z l IH];
      intros acc; cbn [pack24]; [discriminate|].
    destruct (scalar_to_bytes 3 true _) as [b|e0] eqn:Hb; [apply IH|].
    intros [= <-]. revert Hb. unfold scalar_to_bytes, int_to_bytes.
    destruct scalar_to_bytes_missing; [now intros [= <-]|].
    destruct (_ && _); [discriminate | now intros [= <-]].
  - destruct (bit_depth =? 32); [discriminate | now intros [= <-]].
Qed.

(** When the encoder raises, [main] prints [Audio conversion failed:] with
    the error and the run ends with exit status 1; nothing is uploaded.  The
    encoder raises only [Exception]s, so the handler always applies. *)
Theorem encoding_failure_is_fatal (t2 : list event) (audio_data : AudioBuffer)
  (e : exn) :
  record_audio w (duration args) (sample_rate args) (channels args)
  = (t2, Return audio_data) ->
  convert_to_pcm_bytes audio_data (bit_depth args) = Raise e ->
  run w args
  = (t1 ++ t2 ++ [Print ("Audio conversion failed: " ++ exn_str e)], 1).
Proof.
  intros Hrec Hc. unfold run, main. rewrite no_listing, probed, bind_Return.
  unfold record_and_transcribe.
  rewrite Hrec, try_except_Return, bind_Return.
  unfold encode_and_transcribe. rewrite Hc. unfold lift.
  rewrite bind_Raise. unfold try_except.
  rewrite (convert_raises_Exception _ _ _ Hc). reflexivity.
Qed.

(** At [-b 24] a recording that holds a sample whose cast value lies in
    [-2^23, 0) ends the run with [Audio conversion failed:] and exit
    status 1. *)
Theorem negative_sample_at_depth_24_is_fatal (t2 : list event)
  (audio_data : AudioBuffer) :
  record_audio w (duration args) (sample_rate args) (channels args)
  = (t2, Return audio_data) ->
  bit_depth args = 24 ->
  Exists (fun z => -8388608 <= z < 0)
         (flat (astype 32 (scale 8388607 audio_data))) ->
  exists e, run w args
            = (t1 ++ t2 ++ [Print ("Audio conversion failed: " ++ exn_str e)], 1).
Proof.
  intros Hrec Hd Hneg.
  destruct (pack24_raises_on_negative _ [] Hneg) as [e He].
  exists e. unfold run, main. rewrite no_listing, probed, bind_Return.
  unfold record_and_transcribe.
  rewrite Hrec, try_except_Return, bind_Return.
  assert (convert_to_pcm_bytes audio_data (bit_depth args) = Raise e) as Hc
    by (rewrite Hd; exact He).
  unfold encode_and_transcribe. rewrite Hc. unfold lift.
  rewrite bind_Raise. unfold try_except.
  rewrite (convert_raises_Exception _ _ _ Hc). reflexivity.
Qed.

End Failures.

Section UploadFailures.
Context {R : Runtime}.
Variables (w : World) (args : Args).
Variables (t1 t2 : list event) (audio_data : AudioBuffer) (audio_bytes : bytes).

Hypothesis no_listing : list_devices args = false.
Hypothesis probed : probe w args = (t1, Return tt).
Hypothesis recorded :
  record_audio w (duration args) (sample_rate args) (channels args)
  = (t2, Return audio_data).
Hypothesis encoded :
  convert_to_pcm_bytes audio_data (bit_depth args) = Return audio_bytes.

Let request : PostRequest :=
  upload_request audio_bytes (sample_rate args) (channels args)
                 (bit_depth args) (api_url args).
Let converted : event :=
  Print ("Audio converted: " ++ int_str (Z.of_nat (List.length audio_bytes))
         ++ " bytes").
Let sent : list event :=
  [Print "Sending audio to transcription API via multipart upload...";
   HttpPost request].
Let failed : list event := [Print "Transcription failed!"].

(** Every failed upload ends the run with [Transcription failed!] and exit
    status 1, after the diagnostics of [transcribe_audio]: an answer with a
    status other than 200, a transport error, a status 200 whose body is no
    JSON, and a status 200 whose body is falsy ([null], [{}], [[]], [0],
    [false] or the empty string). *)
Theorem failed_upload_is_fatal :
  (forall r, requests_post w request = Return r -> status_code r <> 200 ->
     run w args
     = (t1 ++ t2 ++ converted :: sent
        ++ [Print ("API error: " ++ int_str (status_code r));
            Print (match json r with
                   | Return error_info => "Error details: " ++ py_str error_info
                   | Raise _ => "Response: " ++ text r
                   end)] ++ failed,
        1))
  /\ (forall e, requests_post w request = Raise e ->
     is_RequestException e = true ->
     run w args
     = (t1 ++ t2 ++ converted :: sent
        ++ [Print ("Request failed: " ++ exn_str e)] ++ failed, 1))
  /\ (forall r e, requests_post w request = Return r -> status_code r = 200 ->
     json r = Raise e -> is_RequestException e = true ->
     run w args
     = (t1 ++ t2 ++ converted :: sent
        ++ [Print ("Request failed: " ++ exn_str e)] ++ failed, 1))
  /\ (forall r v, requests_post w request = Return r -> status_code r = 200 ->
     json r = Return v -> truthy v = false ->
     run w args = (t1 ++ t2 ++ converted :: sent ++ failed, 1)).
Proof.
  repeat split.
  - intros r Hr Hs. unfold run.
    rewrite (main_after_upload w args t1 t2 audio_data audio_bytes no_listing
               probed recorded encoded _ PyNone
               (transcribe_audio_error_status w audio_bytes _ _ _ _ r Hr Hs)).
    cbn [truthy]. unfold print, sys_exit, bind. cbn [fst snd exit_status].
    rewrite <- ?app_assoc. reflexivity.
  - intros e Hr He. unfold run.
    rewrite (main_after_upload w args t1 t2 audio_data audio_bytes no_listing
               probed recorded encoded _ PyNone
               (transcribe_audio_transport_failure w audio_bytes _ _ _ _ e Hr He)).
    cbn [truthy]. unfold print, sys_exit, bind. cbn [fst snd exit_status].
    rewrite <- ?app_assoc. reflexivity.
  - intros r e Hr Hs Hj He. unfold run.
    rewrite (main_after_upload w args t1 t2 audio_data audio_bytes no_listing
               probed recorded encoded _ PyNone
               (transcribe_audio_200_undecodable w audio_bytes _ _ _ _ r e
                  Hr Hs Hj He)).
    cbn [truthy]. unfold print, sys_exit, bind. cbn [fst snd exit_status].
    rewrite <- ?app_assoc. reflexivity.
  - intros r v Hr Hs Hj Hv. unfold run.
    rewrite (main_after_upload w args t1 t2 audio_data audio_bytes no_listing
               probed recorded encoded _ v
               (transcribe_audio_200 w audio_bytes _ _ _ _ r v Hr Hs Hj)).
    cbv zeta. rewrite Hv. reflexivity.
Qed.

End UploadFailures.

(** * Answers that are not the expected one *)

Ltac same_trace :=
  repeat (rewrite <- app_assoc || rewrite <- app_comm_cons);
  cbn [app]; reflexivity.

Section Answers.
Context {R : Runtime}.

Lemma segment_line_missing_key (i : nat) (d : list (string * pyvalue)) :
  lookup "start" d = None \/ lookup "end" d = None
  \/ lookup "confidence" d = None \/ lookup "text" d = None ->
  exists e, segment_line i (PyDict d) = Raise e.
Proof.
  intros H. unfold segment_line, subscript.
  destruct (lookup "start" d); [|eauto].
  destruct (lookup "end" d); [|eauto].
  destruct (lookup "confidence" d) as [c|]; [|eauto].
  destruct (format_2f c); [|eauto].
  destruct (lookup "text" d); [|eauto].
  destruct H as [H|[H|[H|H]]]; discriminate H.
Qed.

Lemma print_segments_stops (good rest : list pyvalue) (bad : pyvalue)
  (i : nat) (e : exn) :
  forallb is_segment good = true ->
  segment_line (i + List.length good) bad = Raise e ->
  print_segments i (good ++ bad :: rest)
  = (map Print (segment_lines (Z.of_nat i + 1) good), Raise e).
Proof.
  revert i; induction good as [|v good IH]; intros i Hg Hb.
  - cbn [app print_segments segment_lines map List.length] in *.
    rewrite Nat.add_0_r in Hb. rewrite Hb. reflexivity.
  - apply andb_prop in Hg as [Hv Hg].
    cbn [app print_segments segment_lines map].
    rewrite (segment_line_text i v Hv). unfold lift, print.
    rewrite bind_Return. cbn [fst snd app]. rewrite bind_Return.
    rewrite (IH (S i) Hg)
      by (cbn [List.length] in Hb; now rewrite Nat.add_succ_comm).
    cbn [fst snd app].
    now replace (Z.of_nat (S i) + 1) with (Z.of_nat i + 1 + 1) by lia.
Qed.

Variables (w : World) (args : Args).
Variables (t1 t2 t3 : list event) (audio_data : AudioBuffer)
  (audio_bytes : bytes) (result : pyvalue).

Hypothesis no_listing : list_devices args = false.
Hypothesis probed : probe w args = (t1, Return tt).
Hypothesis recorded :
  record_audio w (duration args) (sample_rate args) (channels args)
  = (t2, Return audio_data).
Hypothesis encoded :
  convert_to_pcm_bytes audio_data (bit_depth args) = Return audio_bytes.
Hypothesis answered :
  transcribe_audio w audio_bytes (sample_rate args) (channels args)
                   (bit_depth args) (api_url args) = (t3, Return result).
Hypothesis present : truthy result = true.

Let converted : event :=
  Print ("Audio converted: " ++ int_str (Z.of_nat (List.length audio_bytes))
         ++ " bytes").
Let before : list event := t1 ++ t2 ++ converted :: t3 ++ heading.

Lemma main_renders :
  main w args
  = (t1 ++ t2 ++ converted :: t3 ++ fst (render result), snd (render result)).
Proof.
  rewrite (main_after_upload w args t1 t2 audio_data audio_bytes no_listing
             probed recorded encoded t3 result answered).
  cbv zeta. now rewrite present.
Qed.

(** A truthy answer that is no [dict] with a [text] key is not handled: after
    the heading, [result['text']] raises [KeyError] for a [dict] without the
    key and [TypeError] for any other value, the exception leaves [main] and
    the exit status is 1. *)
Theorem answer_without_text_crashes :
  (forall d, result = PyDict d -> lookup "text" d = None ->
     main w args = (before, Raise (KeyError (str_repr "text"))))
  /\ ((forall d, result <> PyDict d) ->
      exists msg, main w args = (before, Raise (TypeError msg)))
  /\ (match result with
      | PyDict d => lookup "text" d = None
      | _ => True
      end -> snd (run w args) = 1).
Proof.
  assert (forall e, subscript result "text" = Raise e ->
                    main w args = (before, Raise e)) as Hraise.
  { intros e He. rewrite main_renders. unfold render, print, lift.
    rewrite He. unfold bind. cbn [fst snd app]. unfold before, heading.
    same_trace. }
  split; [|split].
  - intros d -> Ht. apply Hraise. unfold subscript. now rewrite Ht.
  - intros Hnd. destruct result as [| | | | | |d] eqn:E;
      try (eexists; apply Hraise; reflexivity).
    now destruct (Hnd d).
  - intros Hr. unfold run.
    destruct result as [| | | | | |d] eqn:E;
      try (rewrite (Hraise _ eq_refl); reflexivity).
    rewrite (Hraise (KeyError (str_repr "text"))); [reflexivity|].
    unfold subscript. now rewrite Hr.
Qed.

(** An answer with a text whose [segments] are missing, [null] or empty is
    rendered as the heading and the text only, and the run ends with exit
    status 0. *)
Theorem answer_without_segments (d : list (string * pyvalue)) (txt : pyvalue) :
  result = PyDict d ->
  lookup "text" d = Some txt ->
  match lookup "segments" d with
  | None => True
  | Some v => truthy v = false
  end ->
  run w args = (before ++ [Print ("Text: " ++ py_str txt)], 0).
Proof.
  intros Hd Ht Hs. unfold run. rewrite main_renders. subst result.
  unfold render, print, lift, subscript, py_get. rewrite Ht.
  assert (truthy match lookup "segments" d with
                 | Some x => x
                 | None => PyNone
                 end = false) as Hf
    by (destruct (lookup "segments" d); [exact Hs | reflexivity]).
  destruct (lookup "segments" d) as [v|]; unfold bind; cbn [fst snd app];
    cbn [truthy] in *; rewrite ?Hf; cbn [ret fst snd app exit_status];
    unfold before, heading; same_trace.
Qed.

(** Rendering stops at the first segment whose line cannot be built: the
    lines of the segments before it are printed, then the exception leaves
    [main]. *)
Theorem bad_segment_stops_rendering (d : list (string * pyvalue))
  (txt bad : pyvalue) (good rest : list pyvalue) (e : exn) :
  result = PyDict d ->
  lookup "text" d = Some txt ->
  lookup "segments" d = Some (PyList (good ++ bad :: rest)) ->
  forallb is_segment good = true ->
  segment_line (List.length good) bad = Raise e ->
  main w args
  = (before ++ Print ("Text: " ++ py_str txt) :: Print (newline ++ "Segments:")
     :: map Print (segment_lines 1 good),
     Raise e).
Proof.
  intros Hd Ht Hs Hg Hb.
  assert (render (PyDict d)
          = (heading ++ Print ("Text: " ++ py_str txt)
             :: Print (newline ++ "Segments:")
             :: map Print (segment_lines 1 good), Raise e)) as Hrender.
  { unfold render, print, lift, subscript, py_get. rewrite Ht, Hs.
    unfold bind at 1 2 3 4 5 6. cbn [app].
    assert (truthy (PyList (good ++ bad :: rest)) = true) as ->
      by (destruct good; reflexivity).
    unfold py_iter, ret, bind at 1 2 3. cbn [app].
    rewrite (print_segments_stops good rest bad 0 e Hg Hb). reflexivity. }
  rewrite main_renders. subst result. rewrite Hrender.
  cbn [fst snd]. unfold before. same_trace.
Qed.

End Answers.

(** * The theorems at concrete inputs *)

(** For C3: a parsed answer, a status 500, a refused connection, a body of
    status 200 that is no JSON, and a body whose decoding raises
    [RecursionError]. *)
Lemma transcribe_audio_outcomes_witness :
  transcribe_audio (R := x86_runtime None) scenario_world [x00; x00]
                   16000 1 16 API_BASE_URL
  = (sending [x00; x00] 16000, Return example_body)
  /\ transcribe_audio (R := x86_runtime None)
       (mock_world (Return (ok_response PyNone)) (Return error_response))
       [x00; x00] 16000 1 16 API_BASE_URL
     = (sending [x00; x00] 16000
        ++ [Print "API error: 500";
            Print "Error details: {'error': 'model not loaded'}"],
        Return PyNone)
  /\ transcribe_audio (R := x86_runtime None)
       (mock_world (Return (ok_response PyNone)) (Raise refused))
       [x00; x00] 16000 1 16 API_BASE_URL
     = (sending [x00; x00] 16000
        ++ [Print "Request failed: Connection refused"],
        Return PyNone)
  /\ transcribe_audio (R := x86_runtime None)
       (mock_world (Return (ok_response PyNone)) (Return garbled_response))
       [x00; x00] 16000 1 16 API_BASE_URL
     = (sending [x00; x00] 16000
        ++ [Print "Request failed: Expecting value: line 1 column 1 (char 0)"],
        Return PyNone)
  /\ transcribe_audio (R := x86_runtime None)
       (mock_world (Return (ok_response PyNone)) (Return deep_response))
       [x00; x00] 16000 1 16 API_BASE_URL
     = (sending [x00; x00] 16000, Raise recursion_error).
Proof.
  split; [|split; [|split; [|split]]].
  - apply (proj1 (transcribe_audio_outcomes (R := x86_runtime None)
                    scenario_world [x00; x00] 16000 1 16 API_BASE_URL)
             (ok_response example_body)); reflexivity.
  - apply (proj1 (proj2 (transcribe_audio_outcomes (R := x86_runtime None)
                    (mock_world (Return (ok_response PyNone))
                                (Return error_response))
                    [x00; x00] 16000 1 16 API_BASE_URL))
             error_response); [reflexivity | simpl; lia].
  - apply (proj1 (proj2 (proj2 (transcribe_audio_outcomes
                    (R := x86_runtime None)
                    (mock_world (Return (ok_response PyNone)) (Raise refused))
                    [x00; x00] 16000 1 16 API_BASE_URL)))
             refused); reflexivity.
  - apply (proj1 (proj2 (proj2 (proj2 (transcribe_audio_outcomes
                    (R := x86_runtime None)
                    (mock_world (Return (ok_response PyNone))
                                (Return garbled_response))
                    [x00; x00] 16000 1 16 API_BASE_URL))))
             garbled_response
             (JSONDecodeError "Expecting value: line 1 column 1 (char 0)"));
      reflexivity.
  - apply (proj1 (proj2 (proj2 (proj2 (proj2 (proj2
                    (transcribe_audio_outcomes
                       (R := x86_runtime None)
                       (mock_world (Return (ok_response PyNone))
                                   (Return deep_response))
                       [x00; x00] 16000 1 16 API_BASE_URL))))))
             deep_response recursion_error); reflexivity.
Defined.

(** C3, as stated, fails: the server answers 200 with a body whose decoding
    raises [RecursionError]; [transcribe_audio] prints nothing more and the
    exception leaves it. *)
Lemma transcribe_audio_lets_error_through :
  transcribe_audio (R := x86_runtime None)
    (mock_world (Return (ok_response PyNone)) (Return deep_response))
    [x00; x00] 16000 1 16 API_BASE_URL
  = (sending [x00; x00] 16000, Raise recursion_error)
  /\ is_Exception recursion_error = true
  /\ is_RequestException recursion_error = false.
Proof. repeat split. Qed.

(** For C4: bit depth 8. *)
Lemma unsupported_bit_depth_raises_witness :
  convert_to_pcm_bytes (R := x86_runtime None) [[f32_half]] 8
  = Raise (ValueError "Unsupported bit depth: 8").
Proof.
  apply (unsupported_bit_depth_raises (R := x86_runtime None) [[f32_half]] 8);
    lia.
Defined.

(** For C6: a server that answers 503, and one that refuses the
    connection. *)
Lemma probe_outcomes_witness :
  (exists t,
     fst (main (R := x86_runtime None)
            (mock_world (Return unavailable_response)
                        (Return (ok_response example_body)))
            example_args)
     = [Print "Testing API connection to http://127.0.0.1:8080/...";
        HttpGet "http://127.0.0.1:8080/" 5;
        Print "⚠ API returned status 503";
        Print "Recording for 1.0 seconds..."; Print "Speak now!"] ++ t)
  /\ run (R := x86_runtime None)
       (mock_world (Raise refused) (Return (ok_response example_body)))
       example_args
     = ([Print "Testing API connection to http://127.0.0.1:8080/...";
         HttpGet "http://127.0.0.1:8080/" 5;
         Print "✗ Cannot connect to API: Connection refused";
         Print "Make sure the Rust server is running on the specified URL"],
        1).
Proof.
  split.
  - destruct (proj1 (probe_outcomes (R := x86_runtime None)
                       (mock_world (Return unavailable_response)
                                   (Return (ok_response example_body)))
                       example_args eq_refl)
                unavailable_response eq_refl) as [Hmain [t Hrec]];
      [simpl; lia|].
    exists t. rewrite Hmain. cbn [fst]. rewrite Hrec. reflexivity.
  - apply (proj2 (probe_outcomes (R := x86_runtime None)
                    (mock_world (Raise refused)
                                (Return (ok_response example_body)))
                    example_args eq_refl) refused); reflexivity.
Defined.

(** For C7: the end-to-end scenario, one second of silence answered with
    [example_body]. *)
Lemma segments_rendered_witness :
  run (R := x86_runtime None) scenario_world example_args
  = (probe_ok ++ recording ++ Print "Audio converted: 16 bytes"
     :: sending (repeat x00 16) 8 ++ heading
     ++ [Print "Text: test"; Print (newline ++ "Segments:");
         Print "  1. [0.0-1.0] (confidence: 0.95) test"],
     0)
  /\ segment_lines (R := x86_runtime None) 1 [example_segment]
     = ["  1. [0.0-1.0] (confidence: 0.95) test"%string].
Proof.
  refine (segments_rendered (R := x86_runtime None) scenario_world example_args
            probe_ok recording (silence 8) (repeat x00 16) _ _ _ _
            (sending (repeat x00 16) 8)
            [("text", PyStr "test"); ("segments", PyList [example_segment])]%string
            (PyStr "test") [example_segment] _ _ _ _);
    vm_compute; reflexivity.
Defined.

(** C7, as stated, fails on the scenario of the spec: no line
    [1. [0.0-1.0] (confidence: 0.95) test] is printed; the segment's line
    starts with two spaces. *)
Lemma example_segment_line_is_indented :
  ~ In (Print "1. [0.0-1.0] (confidence: 0.95) test")
       (fst (run (R := x86_runtime None) scenario_world example_args))
  /\ In (Print "  1. [0.0-1.0] (confidence: 0.95) test")
        (fst (run (R := x86_runtime None) scenario_world example_args))
  /\ snd (run (R := x86_runtime None) scenario_world example_args) = 0.
Proof.
  vm_compute. repeat split; [|tauto].
  intros H. repeat (destruct H as [H|H]; [discriminate H|]). exact H.
Qed.

(** For C8: [--list-devices]. *)
Lemma list_devices_only_witness :
  run (R := x86_runtime None) scenario_world listing_args
  = ([Print "Available audio devices:"; QueryDevices;
      Print "0 default, ALSA (2 in, 2 out)"], 0)
  /\ existsb later_step
       (fst (run (R := x86_runtime None) scenario_world listing_args)) = false.
Proof.
  destruct (list_devices_only (R := x86_runtime None) scenario_world
              listing_args eq_refl) as [Hrun Hnone].
  split; [apply Hrun; reflexivity | exact Hnone].
Defined.

(** For C9: the same two frames encoded at depth 24 in a run against the
    mock server and in a run against a server that refuses the upload, for
    other sample rates and URLs. *)
Lemma encoding_deterministic_witness :
  let args1 := {| duration := NInt 5; sample_rate := 16000; channels := 1;
                  bit_depth := 24; api_url := API_BASE_URL;
                  list_devices := false |} in
  let args2 := {| duration := NFloat f64_one; sample_rate := 8; channels := 2;
                  bit_depth := 24; api_url := "http://localhost:9000";
                  list_devices := false |} in
  let w2 := mock_world (Return unavailable_response) (Raise refused) in
  let audio_data := [[f32_half]; [f32_half]] in
  convert_to_pcm_bytes (R := x86_runtime None) audio_data (bit_depth args1)
  = convert_to_pcm_bytes (R := x86_runtime None) audio_data (bit_depth args2)
  /\ uploads (fst (encode_and_transcribe (R := x86_runtime None)
                     scenario_world args1 audio_data))
     = uploads (fst (encode_and_transcribe (R := x86_runtime None)
                       w2 args2 audio_data)).
Proof.
  intros args1 args2 w2 audio_data.
  apply (encoding_deterministic (R := x86_runtime None) scenario_world w2
           args1 args2 audio_data).
  reflexivity.
Defined.

(** For C10: the upload answered with status 200 and [{}]. *)
Lemma empty_result_reported_as_failure_witness :
  snd (transcribe_audio (R := x86_runtime None)
         (mock_world (Return (ok_response PyNone))
                     (Return (ok_response (PyDict []))))
         (repeat x00 16) 8 1 16 API_BASE_URL)
  = Return (PyDict [])
  /\ PyDict [] <> PyNone
  /\ run (R := x86_runtime None)
       (mock_world (Return (ok_response PyNone))
                   (Return (ok_response (PyDict []))))
       example_args
     = (probe_ok ++ recording
        ++ [Print "Audio converted: 16 bytes";
            Print "Sending audio to transcription API via multipart upload...";
            HttpPost (upload_request (repeat x00 16) 8 1 16 API_BASE_URL);
            Print "Transcription failed!"],
        1).
Proof.
  refine (empty_result_reported_as_failure (R := x86_runtime None)
            (mock_world (Return (ok_response PyNone))
                        (Return (ok_response (PyDict []))))
            example_args probe_ok recording (silence 8) (repeat x00 16)
            _ _ _ _ (ok_response (PyDict [])) _ _ _);
    vm_compute; reflexivity.
Defined.

(** For the length of the encoding: two frames of one channel at depth
    16. *)
Lemma encoded_length_witness :
  (16 <> 24 ->
   exists b, convert_to_pcm_bytes (R := x86_runtime None)
               [[f32_half]; [f32_minus_half]] 16 = Return b)
  /\ forall b, convert_to_pcm_bytes (R := x86_runtime None)
                 [[f32_half]; [f32_minus_half]] 16 = Return b ->
               Z.of_nat (List.length b) = Z.of_nat 2 * Z.of_nat 1 * (16 / 8).
Proof.
  apply (encoded_length (R := x86_runtime None) 2 1
           [[f32_half]; [f32_minus_half]] 16).
  - split; [reflexivity | repeat constructor].
  - left. reflexivity.
Defined.

(** For the 24-bit encoding of a negative sample: the buffer that holds
    -0.5. *)
Lemma encode24_raises_on_negative_witness :
  exists e, convert_to_pcm_bytes (R := x86_runtime None) [[f32_minus_half]] 24
            = Raise e.
Proof.
  apply (encode24_raises_on_negative (R := x86_runtime None)
           [[f32_minus_half]]).
  change (Exists (fun z => -8388608 <= z < 0) [-4194303]).
  constructor. lia.
Defined.

(** For the truncation at depth 24: a runtime whose scalars have
    [to_bytes]. *)
Lemma encode24_half_truncates_witness :
  convert_to_pcm_bytes (R := x86_runtime None) [[f32_half]] 24
  = Return [xff; xff; x3f].
Proof.
  apply (encode24_half_truncates (R := x86_runtime None) eq_refl).
Defined.

(** For the duration that is no number: [-d nan -r 16000]. *)
Lemma record_audio_duration_not_finite_witness :
  exists e, is_Exception e = true
            /\ forall w channels,
                 record_audio w (NFloat S754_nan) 16000 channels
                 = ([Print "Recording for nan seconds..."; Print "Speak now!"],
                    Raise e).
Proof.
  apply (record_audio_duration_not_finite S754_nan 16000). left. reflexivity.
Defined.

(** For the failed recording: no input device. *)
Lemma recording_failure_is_fatal_witness :
  run (R := x86_runtime None)
      (studio (Raise no_device) (Return (ok_response example_body)))
      example_args
  = (probe_ok
     ++ [Print "Recording for 1.0 seconds..."; Print "Speak now!"; Rec 8 8 1]
     ++ [Print "Recording failed: Error querying device -1";
         Print "Make sure you have a working microphone and the required permissions"],
     1).
Proof.
  refine (recording_failure_is_fatal (R := x86_runtime None)
            (studio (Raise no_device) (Return (ok_response example_body)))
            example_args probe_ok _ _
            [Print "Recording for 1.0 seconds..."; Print "Speak now!";
             Rec 8 8 1] no_device _ _);
    reflexivity.
Defined.

(** For the failed encoding: depth 24 on a runtime whose scalars have no
    [to_bytes]. *)
Lemma encoding_failure_is_fatal_witness :
  run (R := x86_runtime (Some missing_to_bytes))
      (studio (Return [[f32_half]]) (Return (ok_response example_body)))
      args_24
  = (probe_ok ++ recording
     ++ [Print "Audio conversion failed: 'numpy.int32' object has no attribute 'to_bytes'"],
     1).
Proof.
  refine (encoding_failure_is_fatal
            (R := x86_runtime (Some missing_to_bytes))
            (studio (Return [[f32_half]]) (Return (ok_response example_body)))
            args_24 probe_ok _ _ recording [[f32_half]]
            (AttributeError missing_to_bytes)
            _ _);
    reflexivity.
Defined.

(** For depth 24 and a negative sample: a recording of -0.5. *)
Lemma negative_sample_at_depth_24_is_fatal_witness :
  exists e,
    run (R := x86_runtime None)
        (studio (Return [[f32_minus_half]]) (Return (ok_response example_body)))
        args_24
    = (probe_ok ++ recording
       ++ [Print ("Audio conversion failed: " ++ exn_str e)], 1).
Proof.
  refine (negative_sample_at_depth_24_is_fatal (R := x86_runtime None)
            (studio (Return [[f32_minus_half]])
                    (Return (ok_response example_body)))
            args_24 probe_ok _ _ recording [[f32_minus_half]] _ _ _);
    try reflexivity.
  change (Exists (fun z => -8388608 <= z < 0) [-4194303]).
  constructor. lia.
Defined.

(** For the failed uploads: a status 500, a refused connection, a body that
    is no JSON and the body [[]]. *)
Lemma failed_upload_is_fatal_witness :
  snd (run (R := x86_runtime None)
         (mock_world (Return (ok_response PyNone)) (Return error_response))
         example_args) = 1
  /\ snd (run (R := x86_runtime None)
            (mock_world (Return (ok_response PyNone)) (Raise refused))
            example_args) = 1
  /\ snd (run (R := x86_runtime None)
            (mock_world (Return (ok_response PyNone)) (Return garbled_response))
            example_args) = 1
  /\ run (R := x86_runtime None)
       (mock_world (Return (ok_response PyNone))
                   (Return (ok_response (PyList []))))
       example_args
     = (probe_ok ++ recording ++ Print "Audio converted: 16 bytes"
        :: sending (repeat x00 16) 8 ++ [Print "Transcription failed!"], 1).
Proof.
  split; [|split; [|split]].
  - rewrite (proj1 (failed_upload_is_fatal (R := x86_runtime None)
                      (mock_world (Return (ok_response PyNone))
                                  (Return error_response))
                      example_args probe_ok recording (silence 8)
                      (repeat x00 16) eq_refl eq_refl eq_refl eq_refl)
               error_response eq_refl);
      [reflexivity | simpl; lia].
  - rewrite (proj1 (proj2 (failed_upload_is_fatal (R := x86_runtime None)
                      (mock_world (Return (ok_response PyNone)) (Raise refused))
                      example_args probe_ok recording (silence 8)
                      (repeat x00 16) eq_refl eq_refl eq_refl eq_refl))
               refused eq_refl eq_refl).
    reflexivity.
  - rewrite (proj1 (proj2 (proj2 (failed_upload_is_fatal (R := x86_runtime None)
                      (mock_world (Return (ok_response PyNone))
                                  (Return garbled_response))
                      example_args probe_ok recording (silence 8)
                      (repeat x00 16) eq_refl eq_refl eq_refl eq_refl)))
               garbled_response _ eq_refl eq_refl eq_refl eq_refl).
    reflexivity.
  - apply (proj2 (proj2 (proj2 (failed_upload_is_fatal (R := x86_runtime None)
                      (mock_world (Return (ok_response PyNone))
                                  (Return (ok_response (PyList []))))
                      example_args probe_ok recording (silence 8)
                      (repeat x00 16) eq_refl eq_refl eq_refl eq_refl)))
             (ok_response (PyList [])) (PyList []));
      reflexivity.
Defined.

(** For the answer without a text: [{"message": "ok"}], and the list
    [[1]]. *)
Lemma answer_without_text_crashes_witness :
  main (R := x86_runtime None)
       (mock_world (Return (ok_response PyNone))
          (Return (ok_response (PyDict [("message", PyStr "ok")]%string))))
       example_args
  = (probe_ok ++ recording ++ Print "Audio converted: 16 bytes"
     :: sending (repeat x00 16) 8 ++ heading,
     Raise (KeyError "'text'"))
  /\ exists msg,
       main (R := x86_runtime None)
            (mock_world (Return (ok_response PyNone))
               (Return (ok_response (PyList [PyInt 1]))))
            example_args
       = (probe_ok ++ recording ++ Print "Audio converted: 16 bytes"
          :: sending (repeat x00 16) 8 ++ heading,
          Raise (TypeError msg)).
Proof.
  split.
  - apply (proj1 (answer_without_text_crashes (R := x86_runtime None)
                    (mock_world (Return (ok_response PyNone))
                       (Return (ok_response
                                  (PyDict [("message", PyStr "ok")]%string))))
                    example_args probe_ok recording
                    (sending (repeat x00 16) 8) (silence 8) (repeat x00 16)
                    (PyDict [("message", PyStr "ok")]%string)
                    eq_refl eq_refl eq_refl eq_refl eq_refl eq_refl)
             [("message", PyStr "ok")]%string); reflexivity.
  - apply (proj1 (proj2 (answer_without_text_crashes (R := x86_runtime None)
                    (mock_world (Return (ok_response PyNone))
                       (Return (ok_response (PyList [PyInt 1]))))
                    example_args probe_ok recording
                    (sending (repeat x00 16) 8) (silence 8) (repeat x00 16)
                    (PyList [PyInt 1])
                    eq_refl eq_refl eq_refl eq_refl eq_refl eq_refl))).
    intros d. discriminate.
Defined.

(** For the answer without segments: [{"text": "hello"}]. *)
Lemma answer_without_segments_witness :
  run (R := x86_runtime None)
      (mock_world (Return (ok_response PyNone))
         (Return (ok_response (PyDict [("text", PyStr "hello")]%string))))
      example_args
  = ((probe_ok ++ recording ++ Print "Audio converted: 16 bytes"
      :: sending (repeat x00 16) 8 ++ heading)
     ++ [Print "Text: hello"], 0).
Proof.
  refine (answer_without_segments (R := x86_runtime None)
            (mock_world (Return (ok_response PyNone))
               (Return (ok_response (PyDict [("text", PyStr "hello")]%string))))
            example_args probe_ok recording (sending (repeat x00 16) 8)
            (silence 8) (repeat x00 16)
            (PyDict [("text", PyStr "hello")]%string)
            _ _ _ _ _ _ [("text", PyStr "hello")]%string (PyStr "hello")
            _ _ _);
    try reflexivity; try exact I.
Defined.

(** For the segment that cannot be rendered: the example's segment followed
    by one without a confidence. *)
Lemma bad_segment_stops_rendering_witness :
  main (R := x86_runtime None)
       (mock_world (Return (ok_response PyNone))
          (Return (ok_response
                     (PyDict [("text", PyStr "test");
                              ("segments",
                               PyList [example_segment; broken_segment])]%string))))
       example_args
  = ((probe_ok ++ recording ++ Print "Audio converted: 16 bytes"
      :: sending (repeat x00 16) 8 ++ heading)
     ++ [Print "Text: test"; Print (newline ++ "Segments:");
         Print "  1. [0.0-1.0] (confidence: 0.95) test"],
     Raise (KeyError "'confidence'")).
Proof.
  refine (bad_segment_stops_rendering (R := x86_runtime None)
            (mock_world (Return (ok_response PyNone))
               (Return (ok_response
                          (PyDict [("text", PyStr "test");
                                   ("segments",
                                    PyList [example_segment;
                                            broken_segment])]%string))))
            example_args probe_ok recording (sending (repeat x00 16) 8)
            (silence 8) (repeat x00 16) _ _ _ _ _ _ _
            [("text", PyStr "test");
             ("segments", PyList [example_segment; broken_segment])]%string
            (PyStr "test") broken_segment [example_segment] []
            (KeyError "'confidence'") eq_refl _ _ _ _);
    reflexivity.
Defined.
